(** * paho: the MQTT v5 client core of client.go

    A shallow embedding of [paho/client.go].  Every method of [Client] that
    the properties below talk about is transcribed as a function in a small
    state-and-panic monad over the client record.  What another goroutine or
    the network decides (the packet read from the connection, the branch a
    [select] takes, the error a context reports) is an explicit argument of
    the method, so each definition is a deterministic function that can be
    evaluated on concrete inputs.

    Not represented: the session mutex ([c.Lock]/[c.Unlock]), debug logging,
    and the length of [PacketTimeout]; a deadline shows up only as the
    branch of the [select] that fires.  A send on a channel is recorded and
    never blocks.  [Authenticate] is not transcribed. *)

From stdpp Require Import base option list strings gmap.
From Stdlib Require Import ZArith Lia Ascii.

Local Open Scope Z_scope.

(** ** Wire data

    The [packets] package and the paho-level packet types ([Connect],
    [Connack], [Publish], ...) are declared outside client.go; the records
    below carry the fields client.go reads or writes, under the names it
    uses.  A Go pointer that the code tests against [nil] is an [option].
    [byte], [uint16] and [uint32] values are integers in [Z]. *)

Module ConnectProperties.
Record t := {
  MaximumPacketSize : option Z;
  MaximumQOS : option Z;
  ReceiveMaximum : option Z;
  TopicAliasMaximum : option Z }.
End ConnectProperties.

Module Connect.
Record t := {
  KeepAlive : Z;
  ClientID : string;
  CleanStart : bool;
  Properties : option ConnectProperties.t }.
End Connect.

Module ConnackProperties.
Record t := {
  ReasonString : string;
  ServerKeepAlive : option Z;
  AssignedClientID : string;
  ReceiveMaximum : option Z;
  MaximumQoS : option Z;
  MaximumPacketSize : option Z;
  TopicAliasMaximum : option Z;
  RetainAvailable : bool;
  WildcardSubAvailable : bool;
  SubIDAvailable : bool;
  SharedSubAvailable : bool }.
End ConnackProperties.

Module Connack.
Record t := {
  ReasonCode : Z;
  SessionPresent : bool;
  Properties : option ConnackProperties.t }.
End Connack.

Module PublishProperties.
Record t := {
  TopicAlias : option Z;
  ResponseTopic : string;
  CorrelationData : list Z }.
End PublishProperties.

Module Publish.
Record t := {
  PacketID : Z;
  QoS : Z;
  Retain : bool;
  Topic : string;
  Properties : option PublishProperties.t;
  Payload : list Z }.

Definition set_PacketID (id : Z) (p : t) : t :=
  {| PacketID := id; QoS := QoS p; Retain := Retain p; Topic := Topic p;
     Properties := Properties p; Payload := Payload p |}.
End Publish.

(** [Puback], [Pubrec], [Pubrel] and [Pubcomp] have the same shape. *)
Module Ack.
Record t := {
  PacketID : Z;
  ReasonCode : Z }.
End Ack.

Module SubscribeOptions.
Record t := {
  QoS : Z;
  NoLocal : bool;
  RetainAsPublished : bool }.
End SubscribeOptions.

Module SubscribeProperties.
Record t := {
  SubscriptionIdentifier : option Z }.
End SubscribeProperties.

(** [Subscriptions] is a Go map from topic filter to options.  The code only
    ranges over it, and Go leaves the order of a range over a map
    unspecified: the list gives the bindings in the order the range visits
    them. *)
Module Subscribe.
Record t := {
  Subscriptions : list (string * SubscribeOptions.t);
  Properties : option SubscribeProperties.t }.
End Subscribe.

Module AckProperties.
Record t := {
  ReasonString : string }.
End AckProperties.

Module Suback.
Record t := {
  Reasons : list Z;
  Properties : option AckProperties.t }.
End Suback.

Module Unsubscribe.
Record t := {
  Topics : list string }.
End Unsubscribe.

Module Unsuback.
Record t := {
  Reasons : list Z;
  Properties : option AckProperties.t }.
End Unsuback.

Module Disconnect.
Record t := {
  ReasonCode : Z;
  ReasonString : string }.
End Disconnect.

Module Auth.
Record t := {
  ReasonCode : Z;
  AuthMethod : string;
  AuthData : list Z }.
End Auth.

Module PublishResponse.
Record t := {
  ReasonCode : Z }.
End PublishResponse.

(** A control packet: its type tag together with the content of that type.
    [ZeroPacket] is the zero value of the Go struct, which is what a
    variable declared with [var] holds when no packet was assigned to it. *)
Inductive ControlPacket :=
| ZeroPacket
| CONNECT (ProtocolName : string) (ProtocolVersion : Z) (cp : Connect.t)
| CONNACK (ca : Connack.t)
| PUBLISH (pb : Publish.t)
| PUBACK (a : Ack.t)
| PUBREC (a : Ack.t)
| PUBREL (a : Ack.t)
| PUBCOMP (a : Ack.t)
| SUBSCRIBE (id : Z) (s : Subscribe.t)
| SUBACK (id : Z) (sa : Suback.t)
| UNSUBSCRIBE (id : Z) (u : Unsubscribe.t)
| UNSUBACK (id : Z) (ua : Unsuback.t)
| PINGREQ
| PINGRESP
| DISCONNECT (d : Disconnect.t)
| AUTH (a : Auth.t).

(** The [Type] byte of a control packet (MQTT v5 numbering). *)
Definition Type_ (p : ControlPacket) : Z :=
  match p with
  | ZeroPacket => 0
  | CONNECT _ _ _ => 1
  | CONNACK _ => 2
  | PUBLISH _ => 3
  | PUBACK _ => 4
  | PUBREC _ => 5
  | PUBREL _ => 6
  | PUBCOMP _ => 7
  | SUBSCRIBE _ _ => 8
  | SUBACK _ _ => 9
  | UNSUBSCRIBE _ _ => 10
  | UNSUBACK _ _ => 11
  | PINGREQ => 12
  | PINGRESP => 13
  | DISCONNECT _ => 14
  | AUTH _ => 15
  end.

(** [ControlPacket.PacketID()]: the identifier of the packet types that
    carry one, 0 for the others. *)
Definition PacketID (p : ControlPacket) : Z :=
  match p with
  | PUBLISH pb => Publish.PacketID pb
  | PUBACK a | PUBREC a | PUBREL a | PUBCOMP a => Ack.PacketID a
  | SUBSCRIBE id _ | SUBACK id _ | UNSUBSCRIBE id _ | UNSUBACK id _ => id
  | _ => 0
  end.

(** ** Errors

    client.go builds its errors with [fmt.Errorf]; each constructor stands
    for one call site and carries the values formatted into the message. *)
Inductive ctxErr := DeadlineExceeded | Canceled.

Inductive error :=
| ErrConnNil                       (* Client connection is nil *)
| ErrIO                            (* an error returned by the net.Conn *)
| ErrCtx (e : ctxErr)              (* ctx.Err() *)
| ErrConnectFailed (reason : string)   (* Failed to connect to server: %s *)
| ErrWildcard (t : string)         (* Cannot subscribe to %s, server does not support wildcards *)
| ErrSubID                         (* Cannot send subscribe with subID set, ... *)
| ErrSharedSub (t : string)        (* Cannont subscribe to %s, server does not support shared subscriptions *)
| ErrNotSuback (ty : Z)            (* Received %d instead of Suback *)
| ErrSubscribeFailed (reason : string) (* Failed to subscribe to topic: %s *)
| ErrSubscribePartial              (* At least one requested subscription failed *)
| ErrNotUnsuback (ty : Z)          (* Received %d instead of Unsuback *)
| ErrUnsubscribeFailed (reason : string) (* Failed to unsubscribe from topic: %s *)
| ErrUnsubscribePartial            (* At least one requested unsubscribe failed *)
| ErrMaxQoS (qos max : Z)          (* Cannot send Publish with QoS %d, server maximum QoS is %d *)
| ErrTopicAlias (alias max : Z)    (* Cannot send publish with TopicAlias %d, server topic alias maximum is %d *)
| ErrRetain                        (* Cannot send Publish with retain flag set, ... *)
| ErrOops                          (* oops *)
| ErrNotPuback (ty : Z)            (* Received %d instead of PUBACK *)
| ErrPublishing (code : Z)         (* Error publishing: %s *)
| ErrNotPubcomp (ty : Z)           (* Received %d instead of PUBCOMP *)
| ErrNonQoS12 (qos : Z)            (* Ended up with a non QoS1/2 message: %d *)
| ErrServerDisconnect.             (* Received server initiated disconnect *)

(** ** The network connection

    [net.Conn] is an interface of the Go standard library.  The model keeps
    what the client can observe or cause: the packets written so far, how
    often [Close] was called, and whether the link is broken.  A write on a
    closed or broken connection fails and puts nothing on the wire. *)
Record NetConn := {
  wire : list ControlPacket;
  closes : nat;
  broken : bool }.

Definition WriteTo (p : ControlPacket) (k : NetConn) : option error * NetConn :=
  if broken k || negb (Nat.eqb (closes k) 0)
  then (Some ErrIO, k)
  else (None, {| wire := wire k ++ [p]; closes := closes k; broken := broken k |}).

Definition Close (k : NetConn) : NetConn :=
  {| wire := wire k; closes := S (closes k); broken := broken k |}.

(** ** The weighted semaphore of golang.org/x/sync/semaphore

    [cur] permits out of [size] are held.  [Acquire] that cannot be served
    at once waits for the context; with nobody else releasing, it ends with
    the context's error, which is [None] here.  [Release] panics when more
    is released than held, which is [None] as well. *)
Record Weighted := {
  size : Z;
  cur : Z }.

Definition NewWeighted (n : Z) : Weighted := {| size := n; cur := 0 |}.

Definition Acquire (n : Z) (s : Weighted) : option Weighted :=
  if cur s + n <=? size s then Some {| size := size s; cur := cur s + n |} else None.

Definition Release (n : Z) (s : Weighted) : option Weighted :=
  if cur s - n <? 0 then None else Some {| size := size s; cur := cur s - n |}.

(** ** Strings *)

(** [strings.IndexAny(s, chars)]: the index of the first character of [s]
    that occurs in [chars], or -1.  ('#' and '+' are ASCII, so bytes and
    code points agree.) *)
Fixpoint occurs_in (a : Ascii.ascii) (chars : string) : bool :=
  match chars with
  | EmptyString => false
  | String b chars' => Ascii.eqb a b || occurs_in a chars'
  end.

Fixpoint IndexAny (s chars : string) : Z :=
  match s with
  | EmptyString => -1
  | String a s' =>
      if occurs_in a chars then 0
      else let i := IndexAny s' chars in if i <? 0 then -1 else i + 1
  end.

(** [strings.HasPrefix(s, prefix)]. *)
Definition HasPrefix (s prefix : string) : bool := String.prefix prefix s.

(** ** The client

    [CommsProperties] as in client.go. *)
Record CommsProperties := {
  ReceiveMaximum : Z;
  MaximumQoS : Z;
  MaximumPacketSize : Z;
  TopicAliasMaximum : Z;
  RetainAvailable : bool;
  WildcardSubAvailable : bool;
  SubIDAvailable : bool;
  SharedSubAvailable : bool }.

(** A channel of capacity 1 is known by a number; what was sent on it is
    kept in the client's [mailbox].  [CPContext] is the waiter registered
    for a packet identifier: the channel its reply is sent on. *)
Definition chan := nat.

Record CPContext := {
  Return : chan }.

(** The [MIDService] interface: [Request] binds a waiter to a packet
    identifier it picks, [Get] looks an identifier up ([None] is Go's nil).
    Its implementation lives outside client.go, so the client is defined
    over any implementation with state [M]. *)
Class MIDService (M : Type) := {
  Request : CPContext -> M -> Z * M;
  Get : Z -> M -> option CPContext }.

(** What the client starts with a [go] statement. *)
Inductive goroutine :=
| GoIncoming
| GoPingStart (keepalive : Z)
| GoRoute (pb : Publish.t)
| GoAuthenticated
| GoOnDisconnect (d : Disconnect.t).

Section Client.
Context {M : Type} `{MIDService M}.

(** The fields of the Go struct, followed by the bookkeeping of the model:
    [stop] is true once the stop channel is closed; [workers] counts
    [workers.Add(1)]; [AuthHandler] is the handler's [Authenticate] method
    when one is installed; [OnDisconnect] says whether the callback is set;
    [spawned] lists the goroutines started, oldest first; [pingStops] counts
    the calls of [PingHandler.Stop]; [mailbox] lists the channel sends,
    oldest first; [nextChan] numbers the next channel made. *)
Record Client := {
  caCtx : option chan;
  raCtx : option chan;
  stop : bool;
  workers : nat;
  serverProps : CommsProperties;
  clientProps : CommsProperties;
  serverInflight : option Weighted;
  clientInflight : option Weighted;
  ClientID : string;
  Conn : option NetConn;
  MIDs : M;
  AuthHandler : option (Auth.t -> Auth.t);
  OnDisconnect : bool;
  spawned : list goroutine;
  pingStops : nat;
  mailbox : list (chan * ControlPacket);
  nextChan : chan }.

Definition set_caCtx (v : option chan) (c : Client) : Client :=
  {| caCtx := v; raCtx := raCtx c; stop := stop c; workers := workers c;
     serverProps := serverProps c; clientProps := clientProps c;
     serverInflight := serverInflight c; clientInflight := clientInflight c;
     ClientID := ClientID c; Conn := Conn c; MIDs := MIDs c; AuthHandler :=
     AuthHandler c; OnDisconnect := OnDisconnect c; spawned := spawned c;
     pingStops := pingStops c; mailbox := mailbox c; nextChan := nextChan c
     |}.

Definition set_raCtx (v : option chan) (c : Client) : Client :=
  {| caCtx := caCtx c; raCtx := v; stop := stop c; workers := workers c;
     serverProps := serverProps c; clientProps := clientProps c;
     serverInflight := serverInflight c; clientInflight := clientInflight c;
     ClientID := ClientID c; Conn := Conn c; MIDs := MIDs c; AuthHandler :=
     AuthHandler c; OnDisconnect := OnDisconnect c; spawned := spawned c;
     pingStops := pingStops c; mailbox := mailbox c; nextChan := nextChan c
     |}.

Definition set_stop (v : bool) (c : Client) : Client :=
  {| caCtx := caCtx c; raCtx := raCtx c; stop := v; workers := workers c;
     serverProps := serverProps c; clientProps := clientProps c;
     serverInflight := serverInflight c; clientInflight := clientInflight c;
     ClientID := ClientID c; Conn := Conn c; MIDs := MIDs c; AuthHandler :=
     AuthHandler c; OnDisconnect := OnDisconnect c; spawned := spawned c;
     pingStops := pingStops c; mailbox := mailbox c; nextChan := nextChan c
     |}.

Definition set_workers (v : nat) (c : Client) : Client :=
  {| caCtx := caCtx c; raCtx := raCtx c; stop := stop c; workers := v;
     serverProps := serverProps c; clientProps := clientProps c;
     serverInflight := serverInflight c; clientInflight := clientInflight c;
     ClientID := ClientID c; Conn := Conn c; MIDs := MIDs c; AuthHandler :=
     AuthHandler c; OnDisconnect := OnDisconnect c; spawned := spawned c;
     pingStops := pingStops c; mailbox := mailbox c; nextChan := nextChan c
     |}.

Definition set_serverProps (v : CommsProperties) (c : Client) : Client :=
  {| caCtx := caCtx c; raCtx := raCtx c; stop := stop c; workers := workers
     c; serverProps := v; clientProps := clientProps c; serverInflight :=
     serverInflight c; clientInflight := clientInflight c; ClientID :=
     ClientID c; Conn := Conn c; MIDs := MIDs c; AuthHandler := AuthHandler
     c; OnDisconnect := OnDisconnect c; spawned := spawned c; pingStops :=
     pingStops c; mailbox := mailbox c; nextChan := nextChan c |}.

Definition set_clientProps (v : CommsProperties) (c : Client) : Client :=
  {| caCtx := caCtx c; raCtx := raCtx c; stop := stop c; workers := workers
     c; serverProps := serverProps c; clientProps := v; serverInflight :=
     serverInflight c; clientInflight := clientInflight c; ClientID :=
     ClientID c; Conn := Conn c; MIDs := MIDs c; AuthHandler := AuthHandler
     c; OnDisconnect := OnDisconnect c; spawned := spawned c; pingStops :=
     pingStops c; mailbox := mailbox c; nextChan := nextChan c |}.

Definition set_serverInflight (v : option Weighted) (c : Client) : Client :=
  {| caCtx := caCtx c; raCtx := raCtx c; stop := stop c; workers := workers
     c; serverProps := serverProps c; clientProps := clientProps c;
     serverInflight := v; clientInflight := clientInflight c; ClientID :=
     ClientID c; Conn := Conn c; MIDs := MIDs c; AuthHandler := AuthHandler
     c; OnDisconnect := OnDisconnect c; spawned := spawned c; pingStops :=
     pingStops c; mailbox := mailbox c; nextChan := nextChan c |}.

Definition set_clientInflight (v : option Weighted) (c : Client) : Client :=
  {| caCtx := caCtx c; raCtx := raCtx c; stop := stop c; workers := workers
     c; serverProps := serverProps c; clientProps := clientProps c;
     serverInflight := serverInflight c; clientInflight := v; ClientID :=
     ClientID c; Conn := Conn c; MIDs := MIDs c; AuthHandler := AuthHandler
     c; OnDisconnect := OnDisconnect c; spawned := spawned c; pingStops :=
     pingStops c; mailbox := mailbox c; nextChan := nextChan c |}.

Definition set_ClientID (v : string) (c : Client) : Client :=
  {| caCtx := caCtx c; raCtx := raCtx c; stop := stop c; workers := workers
     c; serverProps := serverProps c; clientProps := clientProps c;
     serverInflight := serverInflight c; clientInflight := clientInflight c;
     ClientID := v; Conn := Conn c; MIDs := MIDs c; AuthHandler :=
     AuthHandler c; OnDisconnect := OnDisconnect c; spawned := spawned c;
     pingStops := pingStops c; mailbox := mailbox c; nextChan := nextChan c
     |}.

Definition set_Conn (v : option NetConn) (c : Client) : Client :=
  {| caCtx := caCtx c; raCtx := raCtx c; stop := stop c; workers := workers
     c; serverProps := serverProps c; clientProps := clientProps c;
     serverInflight := serverInflight c; clientInflight := clientInflight c;
     ClientID := ClientID c; Conn := v; MIDs := MIDs c; AuthHandler :=
     AuthHandler c; OnDisconnect := OnDisconnect c; spawned := spawned c;
     pingStops := pingStops c; mailbox := mailbox c; nextChan := nextChan c
     |}.

Definition set_MIDs (v : M) (c : Client) : Client :=
  {| caCtx := caCtx c; raCtx := raCtx c; stop := stop c; workers := workers
     c; serverProps := serverProps c; clientProps := clientProps c;
     serverInflight := serverInflight c; clientInflight := clientInflight c;
     ClientID := ClientID c; Conn := Conn c; MIDs := v; AuthHandler :=
     AuthHandler c; OnDisconnect := OnDisconnect c; spawned := spawned c;
     pingStops := pingStops c; mailbox := mailbox c; nextChan := nextChan c
     |}.

Definition set_spawned (v : list goroutine) (c : Client) : Client :=
  {| caCtx := caCtx c; raCtx := raCtx c; stop := stop c; workers := workers
     c; serverProps := serverProps c; clientProps := clientProps c;
     serverInflight := serverInflight c; clientInflight := clientInflight c;
     ClientID := ClientID c; Conn := Conn c; MIDs := MIDs c; AuthHandler :=
     AuthHandler c; OnDisconnect := OnDisconnect c; spawned := v; pingStops
     := pingStops c; mailbox := mailbox c; nextChan := nextChan c |}.

Definition set_pingStops (v : nat) (c : Client) : Client :=
  {| caCtx := caCtx c; raCtx := raCtx c; stop := stop c; workers := workers
     c; serverProps := serverProps c; clientProps := clientProps c;
     serverInflight := serverInflight c; clientInflight := clientInflight c;
     ClientID := ClientID c; Conn := Conn c; MIDs := MIDs c; AuthHandler :=
     AuthHandler c; OnDisconnect := OnDisconnect c; spawned := spawned c;
     pingStops := v; mailbox := mailbox c; nextChan := nextChan c |}.

Definition set_mailbox (v : list (chan * ControlPacket)) (c : Client) : Client :=
  {| caCtx := caCtx c; raCtx := raCtx c; stop := stop c; workers := workers
     c; serverProps := serverProps c; clientProps := clientProps c;
     serverInflight := serverInflight c; clientInflight := clientInflight c;
     ClientID := ClientID c; Conn := Conn c; MIDs := MIDs c; AuthHandler :=
     AuthHandler c; OnDisconnect := OnDisconnect c; spawned := spawned c;
     pingStops := pingStops c; mailbox := v; nextChan := nextChan c |}.

Definition set_nextChan (v : chan) (c : Client) : Client :=
  {| caCtx := caCtx c; raCtx := raCtx c; stop := stop c; workers := workers
     c; serverProps := serverProps c; clientProps := clientProps c;
     serverInflight := serverInflight c; clientInflight := clientInflight c;
     ClientID := ClientID c; Conn := Conn c; MIDs := MIDs c; AuthHandler :=
     AuthHandler c; OnDisconnect := OnDisconnect c; spawned := spawned c;
     pingStops := pingStops c; mailbox := mailbox c; nextChan := v |}.

Definition set_AuthHandler (v : option (Auth.t -> Auth.t)) (c : Client) : Client :=
  {| caCtx := caCtx c; raCtx := raCtx c; stop := stop c; workers := workers
     c; serverProps := serverProps c; clientProps := clientProps c;
     serverInflight := serverInflight c; clientInflight := clientInflight c;
     ClientID := ClientID c; Conn := Conn c; MIDs := MIDs c; AuthHandler :=
     v; OnDisconnect := OnDisconnect c; spawned := spawned c; pingStops :=
     pingStops c; mailbox := mailbox c; nextChan := nextChan c |}.

Definition set_OnDisconnect (v : bool) (c : Client) : Client :=
  {| caCtx := caCtx c; raCtx := raCtx c; stop := stop c; workers := workers
     c; serverProps := serverProps c; clientProps := clientProps c;
     serverInflight := serverInflight c; clientInflight := clientInflight c;
     ClientID := ClientID c; Conn := Conn c; MIDs := MIDs c; AuthHandler :=
     AuthHandler c; OnDisconnect := v; spawned := spawned c; pingStops :=
     pingStops c; mailbox := mailbox c; nextChan := nextChan c |}.

(** ** The monad of client methods

    A method runs on the client and either finishes with a value and the
    client it leaves behind, or panics (a nil dereference, or releasing a
    semaphore that is not held). *)
Inductive outcome (A : Type) :=
| Done (a : A) (c : Client)
| Panic (why : string).
Arguments Done {A} a c.
Arguments Panic {A} why.

Definition Op (A : Type) : Type := Client -> outcome A.

Definition ret {A} (a : A) : Op A := fun c => Done a c.

Definition bind {A B} (m : Op A) (k : A -> Op B) : Op B :=
  fun c => match m c with
           | Done a c' => k a c'
           | Panic why => Panic why
           end.

Notation "x <- m ;; k" := (bind m (fun x => k))
  (at level 100, m at next level, right associativity).
Notation "m ;; k" := (bind m (fun _ => k))
  (at level 100, right associativity).

Definition panic {A} (why : string) : Op A := fun _ => Panic why.
Definition get : Op Client := fun c => Done c c.
Definition modify (f : Client -> Client) : Op unit := fun c => Done tt (f c).

(** [body] with a deferred call that runs when it returns. *)
Definition deferring {A} (deferred : Op unit) (body : Op A) : Op A :=
  a <- body;; deferred;; ret a.

Definition nil_dereference : string := "invalid memory address or nil pointer dereference".

(** [pkt.WriteTo(c.Conn)] *)
Definition Conn_WriteTo (p : ControlPacket) : Op (option error) :=
  c <- get;;
  match Conn c with
  | None => panic nil_dereference
  | Some k => modify (set_Conn (Some (WriteTo p k).2));; ret (WriteTo p k).1
  end.

(** [c.Conn.Close()] *)
Definition Conn_Close : Op unit :=
  c <- get;;
  match Conn c with
  | None => panic nil_dereference
  | Some k => modify (set_Conn (Some (Close k)))
  end.

(** [go f()] *)
Definition go (g : goroutine) : Op unit :=
  modify (fun c => set_spawned (spawned c ++ [g]) c).

(** [c.workers.Add(1)] *)
Definition workers_Add : Op unit :=
  modify (fun c => set_workers (S (workers c)) c).

(** [make(chan T, 1)] *)
Definition make_chan : Op chan :=
  c <- get;;
  modify (set_nextChan (S (nextChan c)));;
  ret (nextChan c).

(** [ch <- p] *)
Definition send (ch : chan) (p : ControlPacket) : Op unit :=
  modify (fun c => set_mailbox (mailbox c ++ [(ch, p)]) c).

(** [c.MIDs.Request(cpCtx)] *)
Definition MIDs_Request (cp : CPContext) : Op Z :=
  c <- get;;
  modify (set_MIDs (Request cp (MIDs c)).2);;
  ret (Request cp (MIDs c)).1.

(** [c.serverInflight.Release(1)] *)
Definition serverInflight_Release : Op unit :=
  c <- get;;
  match serverInflight c with
  | None => panic nil_dereference
  | Some s =>
      match Release 1 s with
      | None => panic "semaphore: released more than held"
      | Some s' => modify (set_serverInflight (Some s'))
      end
  end.

(** The [select] every waiting method ends with:
    [case <-ctx.Done()] returns the context's error when it is
    [DeadlineExceeded] and otherwise falls out of the [select] with the
    reply variable still at its zero value; [case rp = <-ch] is taken when
    [reply] holds a packet.  [ctx] is the error the method's context reports
    once it is done. *)
Definition select_reply {P} (zero : P) (ctx : ctxErr) (reply : option P) : error + P :=
  match reply with
  | Some rp => inr rp
  | None =>
      match ctx with
      | DeadlineExceeded => inl (ErrCtx DeadlineExceeded)
      | Canceled => inr zero
      end
  end.

(** ** NewClient *)
Definition NewClient (mids : M) : Client :=
  {| caCtx := None;
     raCtx := None;
     stop := false;
     workers := 0%nat;
     serverProps :=
       {| ReceiveMaximum := 65535;
          MaximumQoS := 2;
          MaximumPacketSize := 0;
          TopicAliasMaximum := 0;
          RetainAvailable := true;
          WildcardSubAvailable := true;
          SubIDAvailable := true;
          SharedSubAvailable := true |};
     clientProps :=
       {| ReceiveMaximum := 65535;
          MaximumQoS := 2;
          MaximumPacketSize := 0;
          TopicAliasMaximum := 0;
          RetainAvailable := false;
          WildcardSubAvailable := false;
          SubIDAvailable := false;
          SharedSubAvailable := false |};
     serverInflight := None;
     clientInflight := None;
     ClientID := EmptyString;
     Conn := None;
     MIDs := mids;
     AuthHandler := None;
     OnDisconnect := false;
     spawned := [];
     pingStops := 0%nat;
     mailbox := [];
     nextChan := 0%nat |}.

(** ** Error *)
Definition Client_Error (e : error) : Op unit :=
  c <- get;;
  (if stop c then ret tt else modify (set_stop true));;
  modify (fun c => set_pingStops (S (pingStops c)) c);;
  Conn_Close.

(** ** Incoming

    One turn of the [for] loop on the packet that [packets.ReadPacket]
    returned; the result says whether the loop goes on ([true]) or the
    function returned ([false]). *)
Definition Incoming_dispatch (recv : ControlPacket) : Op bool :=
  match recv with
  | CONNACK cap =>
      c <- get;;
      (match caCtx c with
       | Some ch => send ch recv
       | None => ret tt
       end);;
      ret true
  | AUTH ap =>
      c <- get;;
      if Auth.ReasonCode ap =? 0x0 then
        (match AuthHandler c with
         | Some _ => go GoAuthenticated
         | None => ret tt
         end);;
        (match raCtx c with
         | Some ch => send ch recv
         | None => ret tt
         end);;
        ret true
      else if Auth.ReasonCode ap =? 0x18 then
        match AuthHandler c with
        | Some Authenticate =>
            err <- Conn_WriteTo (AUTH (Authenticate ap));;
            match err with
            | Some e => Client_Error e;; ret false
            | None => ret true
            end
        | None => ret true
        end
      else ret true
  | PUBLISH pb =>
      go (GoRoute pb);;
      (if Publish.QoS pb =? 1 then
         Conn_WriteTo (PUBACK {| Ack.PacketID := Publish.PacketID pb; Ack.ReasonCode := 0 |});;
         ret tt
       else if Publish.QoS pb =? 2 then
         Conn_WriteTo (PUBREC {| Ack.PacketID := Publish.PacketID pb; Ack.ReasonCode := 0 |});;
         ret tt
       else ret tt);;
      ret true
  | PUBACK _ | PUBCOMP _ | SUBACK _ _ | UNSUBACK _ _ =>
      c <- get;;
      (match Get (PacketID recv) (MIDs c) with
       | Some cpCtx => send (Return cpCtx) recv
       | None => ret tt
       end);;
      ret true
  | PUBREC pr =>
      c <- get;;
      (match Get (PacketID recv) (MIDs c) with
       | None =>
           Conn_WriteTo (PUBREL {| Ack.PacketID := Ack.PacketID pr; Ack.ReasonCode := 0x92 |});;
           ret tt
       | Some cpCtx =>
           if 0x80 <=? Ack.ReasonCode pr then send (Return cpCtx) recv
           else
             Conn_WriteTo (PUBREL {| Ack.PacketID := Ack.PacketID pr; Ack.ReasonCode := 0 |});;
             ret tt
       end);;
      ret true
  | PUBREL pr =>
      if Ack.ReasonCode pr <? 0x80 then ret true
      else
        Conn_WriteTo (PUBCOMP {| Ack.PacketID := Ack.PacketID pr; Ack.ReasonCode := 0 |});;
        ret true
  | DISCONNECT d =>
      c <- get;;
      (if OnDisconnect c then go (GoOnDisconnect d) else ret tt);;
      (match raCtx c with
       | Some ch => send ch recv
       | None => ret tt
       end);;
      Client_Error ErrServerDisconnect;;
      ret true
  | _ => ret true
  end.

(** One turn of the loop: leave when the stop channel is closed, otherwise
    read a packet ([inl] is a read error) and dispatch it. *)
Definition Incoming_turn (read : error + ControlPacket) : Op bool :=
  c <- get;;
  if stop c then ret false
  else
    match read with
    | inl err => Client_Error err;; ret false
    | inr recv => Incoming_dispatch recv
    end.

(** The loop over what the connection delivers, in order.  When the list is
    used up the goroutine is waiting in [ReadPacket]. *)
Fixpoint Client_Incoming (reads : list (error + ControlPacket)) : Op unit :=
  match reads with
  | [] => ret tt
  | read :: reads' =>
      continue <- Incoming_turn read;;
      if continue then Client_Incoming reads' else ret tt
  end.

(** ** Connect *)

(** The assignments to [c.clientProps] under [cp.Properties != nil]. *)
Definition clientProps_from (p : ConnectProperties.t) (cl : CommsProperties) : CommsProperties :=
  {| ReceiveMaximum := default (ReceiveMaximum cl) (ConnectProperties.ReceiveMaximum p);
     MaximumQoS := default (MaximumQoS cl) (ConnectProperties.MaximumQOS p);
     MaximumPacketSize := default (MaximumPacketSize cl) (ConnectProperties.MaximumPacketSize p);
     TopicAliasMaximum := default (TopicAliasMaximum cl) (ConnectProperties.TopicAliasMaximum p);
     RetainAvailable := RetainAvailable cl;
     WildcardSubAvailable := WildcardSubAvailable cl;
     SubIDAvailable := SubIDAvailable cl;
     SharedSubAvailable := SharedSubAvailable cl |}.

(** The assignments to [c.serverProps] under [ca.Properties != nil]. *)
Definition serverProps_from (p : ConnackProperties.t) (sv : CommsProperties) : CommsProperties :=
  {| ReceiveMaximum := default (ReceiveMaximum sv) (ConnackProperties.ReceiveMaximum p);
     MaximumQoS := default (MaximumQoS sv) (ConnackProperties.MaximumQoS p);
     MaximumPacketSize := default (MaximumPacketSize sv) (ConnackProperties.MaximumPacketSize p);
     TopicAliasMaximum := default (TopicAliasMaximum sv) (ConnackProperties.TopicAliasMaximum p);
     RetainAvailable := ConnackProperties.RetainAvailable p;
     WildcardSubAvailable := ConnackProperties.WildcardSubAvailable p;
     SubIDAvailable := ConnackProperties.SubIDAvailable p;
     SharedSubAvailable := ConnackProperties.SharedSubAvailable p |}.

(** What [Connect] does with a CONNACK whose reason code is below 0x80, up
    to the start of the ping handler. *)
Definition Connect_established (keepalive : Z) (ca : Connack.t) : Op (option Connack.t * option error) :=
  c <- get;;
  let keepalive :=
    match Connack.Properties ca with
    | Some props => default keepalive (ConnackProperties.ServerKeepAlive props)
    | None => keepalive
    end in
  (match Connack.Properties ca with
   | Some props =>
       (if String.eqb (ConnackProperties.AssignedClientID props) EmptyString then ret tt
        else modify (set_ClientID (ConnackProperties.AssignedClientID props)));;
       modify (fun c => set_serverProps (serverProps_from props (serverProps c)) c)
   | None => ret tt
   end);;
  modify (fun c => set_serverInflight (Some (NewWeighted (ReceiveMaximum (serverProps c)))) c);;
  modify (fun c => set_clientInflight (Some (NewWeighted (ReceiveMaximum (clientProps c)))) c);;
  workers_Add;;
  go (GoPingStart keepalive);;
  ret (Some ca, None).

(** [ctx] is the error the context reports when done, [reply] the CONNACK
    that [Incoming] put on [c.caCtx.Return], if one arrives first.
    [ConnackFromPacketConnack] reads the fields of the packet it is given,
    so the nil packet left by a cancelled context is a nil dereference. *)
Definition Client_Connect (ctx : ctxErr) (reply : option Connack.t) (cp : Connect.t)
  : Op (option Connack.t * option error) :=
  c <- get;;
  match Conn c with
  | None => ret (None, Some ErrConnNil)
  | Some _ =>
      let keepalive := Connect.KeepAlive cp in
      modify (set_ClientID (Connect.ClientID cp));;
      (match Connect.Properties cp with
       | Some props => modify (fun c => set_clientProps (clientProps_from props (clientProps c)) c)
       | None => ret tt
       end);;
      workers_Add;;
      go GoIncoming;;
      ch <- make_chan;;
      modify (set_caCtx (Some ch));;
      deferring (modify (set_caCtx None))
        (err <- Conn_WriteTo (CONNECT "MQTT" 5 cp);;
         match err with
         | Some e => ret (None, Some e)
         | None =>
             match select_reply None ctx (Some <$> reply) with
             | inl e => ret (None, Some e)
             | inr None => panic nil_dereference
             | inr (Some ca) =>
                 if 0x80 <=? Connack.ReasonCode ca then
                   let reason :=
                     match Connack.Properties ca with
                     | Some props => ConnackProperties.ReasonString props
                     | None => EmptyString
                     end in
                   ret (Some ca, Some (ErrConnectFailed reason))
                 else Connect_established keepalive ca
             end
         end)
  end.

(** ** Subscribe *)

(** The first key of the range that satisfies [f]. *)
Fixpoint range_find {V} (f : string -> bool) (m : list (string * V)) : option string :=
  match m with
  | [] => None
  | (t, _) :: m' => if f t then Some t else range_find f m'
  end.

(** The [switch] on a SUBACK's reason codes. *)
Definition Suback_result (sa : Suback.t) : option Suback.t * option error :=
  match Suback.Reasons sa with
  | [code] =>
      if 0x80 <=? code then
        let reason :=
          match Suback.Properties sa with
          | Some props => AckProperties.ReasonString props
          | None => EmptyString
          end in
        (Some sa, Some (ErrSubscribeFailed reason))
      else (Some sa, None)
  | Reasons =>
      if existsb (fun code => 0x80 <=? code) Reasons
      then (Some sa, Some ErrSubscribePartial)
      else (Some sa, None)
  end.

(** The three checks [Subscribe] makes before it sends anything, in the
    order of the source; [None] when all pass. *)
Definition Subscribe_check (sv : CommsProperties) (s : Subscribe.t) : option error :=
  match (if WildcardSubAvailable sv then None
         else range_find (fun t => -1 <? IndexAny t "#+") (Subscribe.Subscriptions s)) with
  | Some t => Some (ErrWildcard t)
  | None =>
      if negb (SubIDAvailable sv)
         && match Subscribe.Properties s with
            | Some props =>
                match SubscribeProperties.SubscriptionIdentifier props with
                | Some _ => true
                | None => false
                end
            | None => false
            end
      then Some ErrSubID
      else
        match (if SharedSubAvailable sv then None
               else range_find (fun t => HasPrefix t "$share") (Subscribe.Subscriptions s)) with
        | Some t => Some (ErrSharedSub t)
        | None => None
        end
  end.

Definition Client_Subscribe (ctx : ctxErr) (reply : option ControlPacket) (s : Subscribe.t)
  : Op (option Suback.t * option error) :=
  c <- get;;
  match Subscribe_check (serverProps c) s with
  | Some e => ret (None, Some e)
  | None =>
      ch <- make_chan;;
      id <- MIDs_Request {| Return := ch |};;
      err <- Conn_WriteTo (SUBSCRIBE id s);;
      match err with
      | Some e => ret (None, Some e)
      | None =>
          match select_reply ZeroPacket ctx reply with
          | inl e => ret (None, Some e)
          | inr (SUBACK _ sa) => ret (Suback_result sa)
          | inr sap => ret (None, Some (ErrNotSuback (Type_ sap)))
          end
      end
  end.

(** ** Unsubscribe *)

(** The [switch] on an UNSUBACK's reason codes. *)
Definition Unsuback_result (ua : Unsuback.t) : option Unsuback.t * option error :=
  match Unsuback.Reasons ua with
  | [code] =>
      if 0x80 <=? code then
        let reason :=
          match Unsuback.Properties ua with
          | Some props => AckProperties.ReasonString props
          | None => EmptyString
          end in
        (Some ua, Some (ErrUnsubscribeFailed reason))
      else (Some ua, None)
  | Reasons =>
      if existsb (fun code => 0x80 <=? code) Reasons
      then (Some ua, Some ErrUnsubscribePartial)
      else (Some ua, None)
  end.

Definition Client_Unsubscribe (ctx : ctxErr) (reply : option ControlPacket) (u : Unsubscribe.t)
  : Op (option Unsuback.t * option error) :=
  ch <- make_chan;;
  id <- MIDs_Request {| Return := ch |};;
  err <- Conn_WriteTo (UNSUBSCRIBE id u);;
  match err with
  | Some e => ret (None, Some e)
  | None =>
      match select_reply ZeroPacket ctx reply with
      | inl e => ret (None, Some e)
      | inr (UNSUBACK _ ua) => ret (Unsuback_result ua)
      | inr uap => ret (None, Some (ErrNotUnsuback (Type_ uap)))
      end
  end.

(** ** Publish *)

(** [PublishResponseFromPuback], [...FromPubrec], [...FromPubcomp]. *)
Definition PublishResponseFrom (a : Ack.t) : PublishResponse.t :=
  {| PublishResponse.ReasonCode := Ack.ReasonCode a |}.

Definition Client_publishQoS12 (ctx : ctxErr) (reply : option ControlPacket) (pb : Publish.t)
  : Op (option PublishResponse.t * option error) :=
  c <- get;;
  match serverInflight c with
  | None => panic nil_dereference
  | Some sem =>
  match Acquire 1 sem with
  | None => ret (None, Some (ErrCtx ctx))
  | Some sem' =>
      modify (set_serverInflight (Some sem'));;
      ch <- make_chan;;
      id <- MIDs_Request {| Return := ch |};;
      let pb := Publish.set_PacketID id pb in
      err <- Conn_WriteTo (PUBLISH pb);;
      match err with
      | Some e => ret (None, Some e)
      | None =>
          match select_reply ZeroPacket ctx reply with
          | inl e => ret (None, Some e)
          | inr resp =>
              if Publish.QoS pb =? 1 then
                match resp with
                | PUBACK a =>
                    serverInflight_Release;;
                    let pr := PublishResponseFrom a in
                    if 0x80 <=? PublishResponse.ReasonCode pr
                    then ret (Some pr, Some (ErrPublishing (Ack.ReasonCode a)))
                    else ret (Some pr, None)
                | _ => ret (None, Some (ErrNotPuback (Type_ resp)))
                end
              else if Publish.QoS pb =? 2 then
                match resp with
                | PUBCOMP a =>
                    serverInflight_Release;;
                    ret (Some (PublishResponseFrom a), None)
                | PUBREC a =>
                    serverInflight_Release;;
                    ret (Some (PublishResponseFrom a), None)
                | _ => ret (None, Some (ErrNotPubcomp (Type_ resp)))
                end
              else ret (None, Some (ErrNonQoS12 (Publish.QoS pb)))
          end
      end
  end
  end.

(** The three checks [Publish] makes before it sends anything; [None] when
    all pass. *)
Definition Publish_check (sv : CommsProperties) (p : Publish.t) : option error :=
  if MaximumQoS sv <? Publish.QoS p
  then Some (ErrMaxQoS (Publish.QoS p) (MaximumQoS sv))
  else
    match
      match Publish.Properties p with
      | Some props =>
          match PublishProperties.TopicAlias props with
          | Some alias =>
              if (0 <? TopicAliasMaximum sv) && (TopicAliasMaximum sv <? alias)
              then Some (ErrTopicAlias alias (TopicAliasMaximum sv))
              else None
          | None => None
          end
      | None => None
      end
    with
    | Some e => Some e
    | None =>
        if negb (RetainAvailable sv) && Publish.Retain p
        then Some ErrRetain
        else None
    end.

Definition Client_Publish (ctx : ctxErr) (reply : option ControlPacket) (p : Publish.t)
  : Op (option PublishResponse.t * option error) :=
  c <- get;;
  match Publish_check (serverProps c) p with
  | Some e => ret (None, Some e)
  | None =>
      let pb := p in
      if Publish.QoS p =? 0 then
        err <- Conn_WriteTo (PUBLISH pb);;
        match err with
        | Some e => ret (None, Some e)
        | None => ret (None, None)
        end
      else if (Publish.QoS p =? 1) || (Publish.QoS p =? 2) then
        Client_publishQoS12 ctx reply pb
      else ret (None, Some ErrOops)
  end.

(** ** Authenticate

    [AuthResponseFromPacketAuth] and [AuthResponseFromPacketDisconnect] are
    declared outside client.go: a response is known by the packet it was
    made from.  The error of [Authenticate] is one the write or the context
    gave, or the one of its last line. *)
Inductive AuthResponse :=
| AuthResponseFromPacketAuth (a : Auth.t)
| AuthResponseFromPacketDisconnect (d : Disconnect.t).

Inductive AuthenticateError :=
| AuthenticateErr (e : error)
| ErrNoAuthOrDisconnect.           (* Error with Auth, didn't receive Auth or Disconnect *)

Definition Client_Authenticate (ctx : ctxErr) (reply : option ControlPacket) (a : Auth.t)
  : Op (option AuthResponse * option AuthenticateError) :=
  ch <- make_chan;;
  modify (set_raCtx (Some ch));;
  deferring (modify (set_raCtx None))
    (err <- Conn_WriteTo (AUTH a);;
     match err with
     | Some e => ret (None, Some (AuthenticateErr e))
     | None =>
         match select_reply ZeroPacket ctx reply with
         | inl e => ret (None, Some (AuthenticateErr e))
         | inr (AUTH ap) => ret (Some (AuthResponseFromPacketAuth ap), None)
         | inr (DISCONNECT d) => ret (Some (AuthResponseFromPacketDisconnect d), None)
         | inr _ => ret (None, Some ErrNoAuthOrDisconnect)
         end
     end).

(** ** Disconnect

    The deferred [c.Conn.Close()] runs after the write, whatever it
    returned. *)
Definition Client_Disconnect (d : Disconnect.t) : Op (option error) :=
  deferring Conn_Close (Conn_WriteTo (DISCONNECT d)).

End Client.

Arguments Client M : clear implicits.
Arguments outcome M A : clear implicits.
Arguments Op M A : clear implicits.
Arguments Done {M A} a c.
Arguments Panic {M A} why.

(** ** The packet-identifier registry

    Modelled from the spec: the methods of [MIDs], the registry that
    [NewClient] installs ([MIDs{index: make(map[uint16]*CPContext)}]), are
    not in client.go.  The spec describes a mapping from 16-bit identifier to
    waiter in which 0 is never assigned and allocation is a next-free scan;
    [Request] returns 0 and registers nothing when no identifier in
    1..65535 is free. *)
Fixpoint next_free (fuel : nat) (i : Z) (index : gmap Z CPContext) : option Z :=
  match fuel with
  | O => None
  | S fuel' =>
      match index !! i with
      | None => Some i
      | Some _ => next_free fuel' (i + 1) index
      end
  end.

#[export] Instance MIDs_index : MIDService (gmap Z CPContext) := {
  Request cp index :=
    match next_free (Z.to_nat 65535) 1 index with
    | Some i => (i, <[i := cp]> index)
    | None => (0, index)
    end;
  Get i index := index !! i }.

Abbreviation registry := (gmap Z CPContext).

(** A connection that is open, healthy and has carried nothing yet. *)
Definition fresh_conn : NetConn := {| wire := []; closes := 0; broken := false |}.

(** The client [NewClient] builds, with a connection attached. *)
Definition fresh_client : Client registry :=
  set_Conn (Some fresh_conn) (NewClient ∅).

(** The client a method leaves behind ([c0] when it panicked). *)
Definition client_after {M A} (o : outcome M A) (c0 : Client M) : Client M :=
  match o with
  | Done _ c => c
  | Panic _ => c0
  end.

(** Scenario S1 of the spec: a CONNECT without properties, answered by
    CONNACK(reason=0) with ReceiveMaximum=10 and AssignedClientID c17. *)
Definition connect_S1 : Connect.t :=
  {| Connect.KeepAlive := 30;
     Connect.ClientID := EmptyString;
     Connect.CleanStart := true;
     Connect.Properties := None |}.

Definition connack_S1 : Connack.t :=
  {| Connack.ReasonCode := 0;
     Connack.SessionPresent := false;
     Connack.Properties :=
       Some {| ConnackProperties.ReasonString := EmptyString;
               ConnackProperties.ServerKeepAlive := None;
               ConnackProperties.AssignedClientID := "c17";
               ConnackProperties.ReceiveMaximum := Some 10;
               ConnackProperties.MaximumQoS := None;
               ConnackProperties.MaximumPacketSize := None;
               ConnackProperties.TopicAliasMaximum := None;
               ConnackProperties.RetainAvailable := true;
               ConnackProperties.WildcardSubAvailable := true;
               ConnackProperties.SubIDAvailable := true;
               ConnackProperties.SharedSubAvailable := true |} |}.

Definition connected_client : Client registry :=
  client_after (Client_Connect DeadlineExceeded (Some connack_S1) connect_S1 fresh_client)
    fresh_client.

(** Inputs of the examples. *)
Definition pubrel_ok : Ack.t := {| Ack.PacketID := 7; Ack.ReasonCode := 0 |}.
Definition pubrel_failed : Ack.t := {| Ack.PacketID := 7; Ack.ReasonCode := 0x80 |}.
Definition pubrec_failed : Ack.t := {| Ack.PacketID := 1; Ack.ReasonCode := 0x80 |}.

Definition publish_of (qos : Z) (retain : bool) (payload : list Z) : Publish.t :=
  {| Publish.PacketID := 0;
     Publish.QoS := qos;
     Publish.Retain := retain;
     Publish.Topic := "t";
     Publish.Properties := None;
     Publish.Payload := payload |}.

Definition disconnect_normal : Disconnect.t :=
  {| Disconnect.ReasonCode := 0; Disconnect.ReasonString := EmptyString |}.

(** A server that grants little: QoS up to 1, packets up to 4 bytes, topic
    aliases up to 5, no retained messages, no wildcards, no subscription
    identifiers, no shared subscriptions. *)
Definition connack_limited : Connack.t :=
  {| Connack.ReasonCode := 0;
     Connack.SessionPresent := false;
     Connack.Properties :=
       Some {| ConnackProperties.ReasonString := EmptyString;
               ConnackProperties.ServerKeepAlive := Some 60;
               ConnackProperties.AssignedClientID := EmptyString;
               ConnackProperties.ReceiveMaximum := Some 10;
               ConnackProperties.MaximumQoS := Some 1;
               ConnackProperties.MaximumPacketSize := Some 4;
               ConnackProperties.TopicAliasMaximum := Some 5;
               ConnackProperties.RetainAvailable := false;
               ConnackProperties.WildcardSubAvailable := false;
               ConnackProperties.SubIDAvailable := false;
               ConnackProperties.SharedSubAvailable := false |} |}.

Definition limited_client : Client registry :=
  client_after (Client_Connect DeadlineExceeded (Some connack_limited) connect_S1 fresh_client)
    fresh_client.

Definition publish_with_alias (alias : Z) : Publish.t :=
  {| Publish.PacketID := 0;
     Publish.QoS := 0;
     Publish.Retain := false;
     Publish.Topic := "t";
     Publish.Properties :=
       Some {| PublishProperties.TopicAlias := Some alias;
               PublishProperties.ResponseTopic := EmptyString;
               PublishProperties.CorrelationData := [] |};
     Publish.Payload := [] |}.

Definition options_QoS0 : SubscribeOptions.t :=
  {| SubscribeOptions.QoS := 0;
     SubscribeOptions.NoLocal := false;
     SubscribeOptions.RetainAsPublished := false |}.

Definition subscribe_to (t : string) (subid : option Z) : Subscribe.t :=
  {| Subscribe.Subscriptions := [(t, options_QoS0)];
     Subscribe.Properties :=
       match subid with
       | Some _ => Some {| SubscribeProperties.SubscriptionIdentifier := subid |}
       | None => None
       end |}.

Definition suback_of (Reasons : list Z) (reason : string) : Suback.t :=
  {| Suback.Reasons := Reasons;
     Suback.Properties := Some {| AckProperties.ReasonString := reason |} |}.

Definition unsuback_of (Reasons : list Z) : Unsuback.t :=
  {| Unsuback.Reasons := Reasons; Unsuback.Properties := None |}.

(** Conditions under which a check of [Subscribe_check] lets the request
    through. *)

Definition has_wildcard (t : string) : bool :=
  occurs_in "#"%char t || occurs_in "+"%char t.

(** The wildcard check passes: the server has wildcards, or no filter holds
    '#' or '+'. *)
Definition wildcards_pass (sv : CommsProperties) (s : Subscribe.t) : bool :=
  WildcardSubAvailable sv
  || forallb (fun kv => negb (has_wildcard kv.1)) (Subscribe.Subscriptions s).

(** The subscription-identifier check passes: the server has them, or the
    request carries none. *)
Definition subid_passes (sv : CommsProperties) (s : Subscribe.t) : bool :=
  SubIDAvailable sv
  || match Subscribe.Properties s with
     | Some props =>
         match SubscribeProperties.SubscriptionIdentifier props with
         | Some _ => false
         | None => true
         end
     | None => true
     end.

(** ** What Incoming leaves alone

    [c'] has the registry, the windows, the properties, the client
    identifier and the waiter slots of [c]; its connection has the packets
    of [c]'s connection at the front of its wire and has not been closed
    less often. *)
Definition Incoming_keeps {M} (c c' : Client M) : Prop :=
  MIDs c' = MIDs c /\
  serverInflight c' = serverInflight c /\
  clientInflight c' = clientInflight c /\
  serverProps c' = serverProps c /\
  clientProps c' = clientProps c /\
  ClientID c' = ClientID c /\
  caCtx c' = caCtx c /\
  raCtx c' = raCtx c /\
  exists k k' sent,
    Conn c = Some k /\ Conn c' = Some k' /\
    wire k' = wire k ++ sent /\ (closes k <= closes k')%nat.


(** The packet types that have no case in the [switch] of [Incoming]. *)
Definition no_case (recv : ControlPacket) : bool :=
  match recv with
  | ZeroPacket | CONNECT _ _ _ | SUBSCRIBE _ _ | UNSUBSCRIBE _ _ | PINGREQ | PINGRESP => true
  | _ => false
  end.

(** [connected_client] after a QoS 1 Publish that ran into its deadline:
    identifier 1 is bound to a waiter and one permit is held. *)
Definition waiting_client : Client registry :=
  client_after
    (Client_Publish DeadlineExceeded None (publish_of 1 false [109]) connected_client)
    connected_client.

(** An authentication handler that answers every challenge with the data it
    was sent. *)
Definition echo_Authenticate (a : Auth.t) : Auth.t :=
  {| Auth.ReasonCode := 0x18;
     Auth.AuthMethod := Auth.AuthMethod a;
     Auth.AuthData := Auth.AuthData a |}.

(** [connected_client] with that handler and an [OnDisconnect] callback. *)
Definition handling_client : Client registry :=
  set_OnDisconnect true (set_AuthHandler (Some echo_Authenticate) connected_client).

Definition auth_of (code : Z) : Auth.t :=
  {| Auth.ReasonCode := code; Auth.AuthMethod := "SCRAM"; Auth.AuthData := [1; 2] |}.

Definition ack_of (id code : Z) : Ack.t :=
  {| Ack.PacketID := id; Ack.ReasonCode := code |}.

Definition connack_refused : Connack.t :=
  {| Connack.ReasonCode := 0x87;
     Connack.SessionPresent := false;
     Connack.Properties :=
       Some {| ConnackProperties.ReasonString := "not authorized";
               ConnackProperties.ServerKeepAlive := None;
               ConnackProperties.AssignedClientID := EmptyString;
               ConnackProperties.ReceiveMaximum := Some 10;
               ConnackProperties.MaximumQoS := None;
               ConnackProperties.MaximumPacketSize := None;
               ConnackProperties.TopicAliasMaximum := None;
               ConnackProperties.RetainAvailable := false;
               ConnackProperties.WildcardSubAvailable := false;
               ConnackProperties.SubIDAvailable := false;
               ConnackProperties.SharedSubAvailable := false |} |}.

(** [connected_client] once all ten permits of its window are held. *)
Definition saturated_client : Client registry :=
  set_serverInflight (Some {| size := 10; cur := 10 |}) connected_client.

(** [connected_client] whose link has failed. *)
Definition broken_client : Client registry :=
  set_Conn (Some {| wire := [CONNECT "MQTT" 5 connect_S1]; closes := 0; broken := true |})
    connected_client.

(** The connections of [connected_client] and [waiting_client]. *)
Definition connected_conn : NetConn :=
  {| wire := [CONNECT "MQTT" 5 connect_S1]; closes := 0; broken := false |}.

Definition waiting_conn : NetConn :=
  {| wire := [CONNECT "MQTT" 5 connect_S1;
              PUBLISH (Publish.set_PacketID 1 (publish_of 1 false [109]))];
     closes := 0; broken := false |}.

(** [connected_client] after [Error]. *)
Definition stopped_client : Client registry :=
  client_after (Client_Error ErrIO connected_client) connected_client.

(** A publication from the server with packet identifier 9. *)
Definition inbound_publish (qos : Z) : Publish.t :=
  Publish.set_PacketID 9 (publish_of qos false [109]).

(** * Properties *)

Section Properties.
Context {M : Type} `{MIDService M}.
Implicit Types (c : Client M) (k : NetConn) (ctx : ctxErr).

Ltac run :=
  cbv [Client_Connect Connect_established Client_Subscribe Client_Unsubscribe
       Client_Publish Client_publishQoS12 Client_Disconnect Client_Error
       Incoming_turn Incoming_dispatch
       deferring Conn_WriteTo Conn_Close go workers_Add make_chan send
       MIDs_Request serverInflight_Release bind ret get modify panic];
  cbn.

(** A write on an open, healthy connection appends the packet. *)
Lemma WriteTo_open p k :
  broken k = false -> closes k = 0%nat ->
  WriteTo p k = (None, {| wire := wire k ++ [p]; closes := 0; broken := false |}).
Proof. unfold WriteTo. intros -> ->. reflexivity. Qed.

(** A write on a closed connection fails and leaves it as it is. *)
Lemma WriteTo_closed p k :
  closes k <> 0%nat -> WriteTo p k = (Some ErrIO, k).
Proof.
  unfold WriteTo. intros Hk. destruct (closes k); [done|].
  by rewrite orb_true_r.
Qed.

(** ** Incoming and PUBREL *)

(** What the PUBREL branch does: below 0x80 the loop goes on at once, and
    the client, its connection included, is untouched. *)
Lemma Incoming_PUBREL_below_0x80 c pr :
  stop c = false -> Ack.ReasonCode pr < 0x80 ->
  Incoming_turn (inr (PUBREL pr)) c = Done true c.
Proof.
  intros Hstop Hcode. run. rewrite Hstop.
  destruct (Z.ltb_spec (Ack.ReasonCode pr) 128); [reflexivity | lia].
Qed.

(** From 0x80 on a PUBCOMP with the same identifier is written. *)
Lemma Incoming_PUBREL_from_0x80 c k pr :
  stop c = false -> Conn c = Some k -> 0x80 <= Ack.ReasonCode pr ->
  Incoming_turn (inr (PUBREL pr)) c =
  Done true
    (set_Conn (Some (WriteTo (PUBCOMP {| Ack.PacketID := Ack.PacketID pr;
                                         Ack.ReasonCode := 0 |}) k).2) c).
Proof.
  intros Hstop Hconn Hcode. run. rewrite Hstop.
  destruct (Z.ltb_spec (Ack.ReasonCode pr) 128); [lia |].
  rewrite Hconn. reflexivity.
Qed.

(** A SUBACK whose identifier has a waiter in the registry is sent on that
    waiter's channel. *)
Lemma Incoming_SUBACK_delivered c id sa cpCtx :
  stop c = false -> Get id (MIDs c) = Some cpCtx ->
  Incoming_turn (inr (SUBACK id sa)) c =
  Done true (set_mailbox (mailbox c ++ [(Return cpCtx, SUBACK id sa)]) c).
Proof. intros Hstop Hget. run. rewrite Hstop, Hget. reflexivity. Qed.

(** A PUBREC of 0x80 or more whose identifier has a waiter is sent on that
    waiter's channel, and nothing is written. *)
Lemma Incoming_PUBREC_failed_delivered c pr cpCtx :
  stop c = false -> Get (Ack.PacketID pr) (MIDs c) = Some cpCtx ->
  0x80 <= Ack.ReasonCode pr ->
  Incoming_turn (inr (PUBREC pr)) c =
  Done true (set_mailbox (mailbox c ++ [(Return cpCtx, PUBREC pr)]) c).
Proof.
  intros Hstop Hget Hcode. run. rewrite Hstop, Hget.
  destruct (Z.leb_spec 128 (Ack.ReasonCode pr)); [reflexivity | lia].
Qed.

(** ** Connect without a connection *)

(** C9.  Connect on a client whose [Conn] is nil returns the error
    "Client connection is nil" at once: no response, nothing written (there
    is no connection to write to), no goroutine started, and the client is
    left exactly as it was. *)
Theorem Connect_nil_Conn c ctx reply cp :
  Conn c = None ->
  Client_Connect ctx reply cp c = Done (None, Some ErrConnNil) c.
Proof. intros Hconn. run. rewrite Hconn. reflexivity. Qed.

(** ** Disconnect *)

(** Disconnect returns what the write returned and calls [Close] on the
    connection whether or not the write failed. *)
Lemma Disconnect_run c k d :
  Conn c = Some k ->
  Client_Disconnect d c =
  Done (WriteTo (DISCONNECT d) k).1
       (set_Conn (Some (Close (WriteTo (DISCONNECT d) k).2)) c).
Proof. intros Hconn. run. rewrite Hconn. reflexivity. Qed.

(** C8, as the code has it.  On an open connection the first Disconnect
    writes DISCONNECT, returns nil and closes the connection; a second
    Disconnect returns the error of writing to the closed connection, puts
    nothing more on the wire, and calls [Close] again: two calls of
    Disconnect are two calls of [Close]. *)
Theorem Disconnect_twice c k d1 d2 :
  Conn c = Some k -> broken k = false -> closes k = 0%nat ->
  exists c1 c2,
    Client_Disconnect d1 c = Done None c1 /\
    Client_Disconnect d2 c1 = Done (Some ErrIO) c2 /\
    Conn c1 = Some {| wire := wire k ++ [DISCONNECT d1]; closes := 1; broken := false |} /\
    Conn c2 = Some {| wire := wire k ++ [DISCONNECT d1]; closes := 2; broken := false |}.
Proof.
  intros Hconn Hb Hc.
  eexists _, _. split; [|split; [|split]].
  - rewrite (Disconnect_run c k d1 Hconn), (WriteTo_open _ k Hb Hc). reflexivity.
  - erewrite Disconnect_run by reflexivity.
    rewrite WriteTo_closed by (cbn; lia). reflexivity.
  - reflexivity.
  - reflexivity.
Qed.

(** ** Connect and the CONNACK *)

(** C3, as the code has it.  A CONNACK below 0x80 makes Connect return it
    with a nil error, having adopted the server's properties, the assigned
    client identifier when it is not empty and the server's keep-alive when
    given.  The server-facing window is sized by the server's
    ReceiveMaximum as adopted (so by the CONNACK's value when it carries
    one), the client-facing window by the client's own ReceiveMaximum, the
    one declared in the CONNECT or the value the client had. *)
Theorem Connect_adopts_CONNACK c k ctx cp ca :
  Conn c = Some k -> broken k = false -> closes k = 0%nat ->
  Connack.ReasonCode ca < 0x80 ->
  exists c',
    Client_Connect ctx (Some ca) cp c = Done (Some ca, None) c' /\
    serverProps c' =
      match Connack.Properties ca with
      | Some props => serverProps_from props (serverProps c)
      | None => serverProps c
      end /\
    clientProps c' =
      match Connect.Properties cp with
      | Some props => clientProps_from props (clientProps c)
      | None => clientProps c
      end /\
    ClientID c' =
      match Connack.Properties ca with
      | Some props =>
          if String.eqb (ConnackProperties.AssignedClientID props) EmptyString
          then Connect.ClientID cp
          else ConnackProperties.AssignedClientID props
      | None => Connect.ClientID cp
      end /\
    spawned c' =
      spawned c ++
      [GoIncoming;
       GoPingStart
         match Connack.Properties ca with
         | Some props =>
             default (Connect.KeepAlive cp) (ConnackProperties.ServerKeepAlive props)
         | None => Connect.KeepAlive cp
         end] /\
    serverInflight c' = Some {| size := ReceiveMaximum (serverProps c'); cur := 0 |} /\
    clientInflight c' = Some {| size := ReceiveMaximum (clientProps c'); cur := 0 |} /\
    (forall props n,
        Connack.Properties ca = Some props ->
        ConnackProperties.ReceiveMaximum props = Some n ->
        serverInflight c' = Some {| size := n; cur := 0 |}) /\
    (forall n,
        ReceiveMaximum (clientProps c) = n ->
        (forall props, Connect.Properties cp = Some props ->
                       ConnectProperties.ReceiveMaximum props = None) ->
        clientInflight c' = Some {| size := n; cur := 0 |}).
Proof.
  intros Hconn Hb Hc Hcode. run. rewrite !Hconn. cbn.
  destruct (Connect.Properties cp) as [cprops|] eqn:Hcp; cbn; rewrite ?Hconn; cbn;
    rewrite (WriteTo_open _ k Hb Hc); cbn;
    (destruct (Z.leb_spec 128 (Connack.ReasonCode ca)); [lia |]);
    destruct (Connack.Properties ca) as [props|] eqn:Hca; cbn;
    try destruct (String.eqb (ConnackProperties.AssignedClientID props) EmptyString); cbn;
    (eexists; split; [reflexivity |]); cbn;
    repeat split; try reflexivity; try congruence.
  all: try (intros props' n [= <-] Hn; cbn; rewrite Hn; reflexivity).
  all: try (intros n <- Hnone; cbn; rewrite (Hnone _ eq_refl); reflexivity).
  all: try (intros n <- _; reflexivity).
  all: by rewrite <- app_assoc.
Qed.

(** ** Publish: the checks before sending *)

(** C4, as the code has it.  Publish makes three checks, in this order, and
    each failure returns its error with the client untouched, so nothing was
    written: a QoS above the server's MaximumQoS; a topic alias above the
    server's TopicAliasMaximum when that is positive; Retain when the server
    has RetainAvailable false.  The server's MaximumPacketSize takes no part
    in any of them. *)
Theorem Publish_preflight c ctx reply p :
  (MaximumQoS (serverProps c) < Publish.QoS p ->
   Client_Publish ctx reply p c =
   Done (None, Some (ErrMaxQoS (Publish.QoS p) (MaximumQoS (serverProps c)))) c) /\
  (forall props alias,
      Publish.QoS p <= MaximumQoS (serverProps c) ->
      Publish.Properties p = Some props ->
      PublishProperties.TopicAlias props = Some alias ->
      0 < TopicAliasMaximum (serverProps c) < alias ->
      Client_Publish ctx reply p c =
      Done (None, Some (ErrTopicAlias alias (TopicAliasMaximum (serverProps c)))) c) /\
  (Publish.QoS p <= MaximumQoS (serverProps c) ->
   (forall props alias,
       Publish.Properties p = Some props ->
       PublishProperties.TopicAlias props = Some alias ->
       ~ 0 < TopicAliasMaximum (serverProps c) < alias) ->
   RetainAvailable (serverProps c) = false -> Publish.Retain p = true ->
   Client_Publish ctx reply p c = Done (None, Some ErrRetain) c).
Proof.
  split; [|split].
  - intros Hq. run. unfold Publish_check.
    destruct (Z.ltb_spec (MaximumQoS (serverProps c)) (Publish.QoS p)); [reflexivity | lia].
  - intros props alias Hq Hp Ha [Hmax Halias]. run. unfold Publish_check.
    destruct (Z.ltb_spec (MaximumQoS (serverProps c)) (Publish.QoS p)); [lia |].
    rewrite Hp, Ha.
    destruct (Z.ltb_spec 0 (TopicAliasMaximum (serverProps c))); [| lia].
    destruct (Z.ltb_spec (TopicAliasMaximum (serverProps c)) alias); [reflexivity | lia].
  - intros Hq Halias Hr Hp. run. unfold Publish_check.
    destruct (Z.ltb_spec (MaximumQoS (serverProps c)) (Publish.QoS p)); [lia |].
    rewrite Hr, Hp.
    destruct (Publish.Properties p) as [props|]; [| reflexivity].
    destruct (PublishProperties.TopicAlias props) as [alias|] eqn:Ha; [| reflexivity].
    specialize (Halias props alias eq_refl Ha).
    destruct (Z.ltb_spec 0 (TopicAliasMaximum (serverProps c)));
      destruct (Z.ltb_spec (TopicAliasMaximum (serverProps c)) alias);
      cbn; try reflexivity; lia.
Qed.

(** A QoS 0 publication that passes the three checks is written to an open
    connection whatever its payload and whatever the server's
    MaximumPacketSize. *)
Lemma Publish_QoS0_sends c k ctx reply p :
  Conn c = Some k -> broken k = false -> closes k = 0%nat ->
  Publish_check (serverProps c) p = None -> Publish.QoS p = 0 ->
  Client_Publish ctx reply p c =
  Done (None, None)
       (set_Conn (Some {| wire := wire k ++ [PUBLISH p]; closes := 0; broken := false |}) c).
Proof.
  intros Hconn Hb Hc Hcheck Hq. run.
  rewrite Hcheck, Hq. cbn. rewrite Hconn. cbn.
  rewrite (WriteTo_open _ k Hb Hc). reflexivity.
Qed.

(** The checks do not look at MaximumPacketSize. *)
Lemma Publish_check_ignores_MaximumPacketSize sv p n :
  Publish_check
    {| ReceiveMaximum := ReceiveMaximum sv; MaximumQoS := MaximumQoS sv;
       MaximumPacketSize := n; TopicAliasMaximum := TopicAliasMaximum sv;
       RetainAvailable := RetainAvailable sv;
       WildcardSubAvailable := WildcardSubAvailable sv;
       SubIDAvailable := SubIDAvailable sv;
       SharedSubAvailable := SharedSubAvailable sv |} p =
  Publish_check sv p.
Proof. reflexivity. Qed.

(** ** Subscribe: the checks before sending *)

Local Arguments Ascii.eqb : simpl never.

Lemma IndexAny_lower s chars : -1 <= IndexAny s chars.
Proof.
  induction s as [|a s IH]; cbn; [lia |].
  destruct (occurs_in a chars); [lia |].
  destruct (Z.ltb_spec (IndexAny s chars) 0); lia.
Qed.

(** [IndexAny t "#+" > -1] says that '#' or '+' occurs in [t]. *)
Lemma IndexAny_wildcard t :
  -1 < IndexAny t "#+" <-> occurs_in "#"%char t = true \/ occurs_in "+"%char t = true.
Proof.
  induction t as [|a t IH]; cbn.
  - split; [lia | intros [|]; discriminate].
  - rewrite (Ascii.eqb_sym "#"%char a), (Ascii.eqb_sym "+"%char a).
    destruct (Ascii.eqb a "#"), (Ascii.eqb a "+"); cbn; try (split; [auto | lia]).
    pose proof (IndexAny_lower t "#+").
    destruct (Z.ltb_spec (IndexAny t "#+") 0); split; intros Ht.
    + lia.
    + apply IH in Ht. lia.
    + apply IH. lia.
    + lia.
Qed.

Lemma range_find_Some {V} (f : string -> bool) (m : list (string * V)) t o :
  (t, o) ∈ m -> f t = true -> exists t', range_find f m = Some t' /\ f t' = true.
Proof.
  induction m as [|[t0 o0] m IH]; intros Hin Hf.
  - by apply elem_of_nil in Hin.
  - cbn. destruct (f t0) eqn:Hf0; [eauto |].
    apply elem_of_cons in Hin as [[= -> ->] | Hin]; [congruence | auto].
Qed.

Lemma range_find_None {V} (f : string -> bool) (m : list (string * V)) :
  (forall t o, (t, o) ∈ m -> f t = false) -> range_find f m = None.
Proof.
  induction m as [|[t0 o0] m IH]; intros Hall; [reflexivity |].
  cbn. rewrite (Hall t0 o0) by (apply elem_of_cons; by left).
  apply IH. intros t o Hin. apply (Hall t o). apply elem_of_cons. by right.
Qed.

Lemma wildcards_pass_find sv s :
  wildcards_pass sv s = true ->
  (if WildcardSubAvailable sv then None
   else range_find (fun t => -1 <? IndexAny t "#+") (Subscribe.Subscriptions s)) = None.
Proof.
  unfold wildcards_pass. destruct (WildcardSubAvailable sv); [reflexivity |].
  cbn. intros Hall. apply range_find_None. intros t o Hin.
  rewrite forallb_forall in Hall.
  apply list_elem_of_In, Hall, negb_true_iff in Hin. cbn in Hin.
  destruct (Z.ltb_spec (-1) (IndexAny t "#+")) as [Hlt|]; [| reflexivity].
  apply IndexAny_wildcard in Hlt. unfold has_wildcard in Hin.
  apply orb_false_iff in Hin as [Hs Hp]. destruct Hlt; congruence.
Qed.

Lemma subid_passes_test sv s :
  subid_passes sv s = true ->
  negb (SubIDAvailable sv)
  && match Subscribe.Properties s with
     | Some props =>
         match SubscribeProperties.SubscriptionIdentifier props with
         | Some _ => true
         | None => false
         end
     | None => false
     end = false.
Proof.
  unfold subid_passes. destruct (SubIDAvailable sv); [reflexivity |].
  destruct (Subscribe.Properties s) as [props|]; [| reflexivity].
  by destruct (SubscribeProperties.SubscriptionIdentifier props).
Qed.

(** C7.  Subscribe checks the request against the server's capabilities in
    this order, and each failure returns its error with the client
    untouched, so no SUBSCRIBE was written and no identifier taken: a filter
    holding '#' or '+' when WildcardSubAvailable is false; a
    SubscriptionIdentifier when SubIDAvailable is false; a filter starting
    with $share when SharedSubAvailable is false. *)
Theorem Subscribe_capability_checks c ctx reply s :
  (forall t o,
      WildcardSubAvailable (serverProps c) = false ->
      (t, o) ∈ Subscribe.Subscriptions s ->
      has_wildcard t = true ->
      exists t', Client_Subscribe ctx reply s c = Done (None, Some (ErrWildcard t')) c) /\
  (forall props id,
      wildcards_pass (serverProps c) s = true ->
      SubIDAvailable (serverProps c) = false ->
      Subscribe.Properties s = Some props ->
      SubscribeProperties.SubscriptionIdentifier props = Some id ->
      Client_Subscribe ctx reply s c = Done (None, Some ErrSubID) c) /\
  (forall t o,
      wildcards_pass (serverProps c) s = true ->
      subid_passes (serverProps c) s = true ->
      SharedSubAvailable (serverProps c) = false ->
      (t, o) ∈ Subscribe.Subscriptions s ->
      HasPrefix t "$share" = true ->
      exists t', Client_Subscribe ctx reply s c = Done (None, Some (ErrSharedSub t')) c).
Proof.
  split; [|split].
  - intros t o Hw Hin Hwild. run. unfold Subscribe_check. rewrite Hw.
    destruct (range_find_Some (fun t => -1 <? IndexAny t "#+") _ t o Hin) as (t' & -> & _).
    { apply Z.ltb_lt, IndexAny_wildcard, orb_true_iff, Hwild. }
    by exists t'.
  - intros props id Hw Hsub Hp Hid. run. unfold Subscribe_check.
    rewrite (wildcards_pass_find _ _ Hw), Hsub, Hp, Hid. reflexivity.
  - intros t o Hw Hsub Hsh Hin Hpre. run. unfold Subscribe_check.
    rewrite (wildcards_pass_find _ _ Hw), (subid_passes_test _ _ Hsub), Hsh.
    destruct (range_find_Some (fun t => HasPrefix t "$share") _ t o Hin Hpre) as (t' & -> & _).
    by exists t'.
Qed.

(** ** Subscribe and Unsubscribe: reading the acknowledgement *)

Lemma existsb_failure_false (Reasons : list Z) :
  Forall (fun code => code < 0x80) Reasons ->
  existsb (fun code => 0x80 <=? code) Reasons = false.
Proof.
  induction 1 as [|code Reasons Hcode _ IH]; [reflexivity |].
  cbn. rewrite IH. destruct (Z.leb_spec 128 code); [lia | reflexivity].
Qed.

Lemma existsb_failure_true (Reasons : list Z) :
  Exists (fun code => 0x80 <= code) Reasons ->
  existsb (fun code => 0x80 <=? code) Reasons = true.
Proof.
  induction 1 as [code Reasons Hcode | code Reasons _ IH]; cbn.
  - destruct (Z.leb_spec 128 code); [reflexivity | lia].
  - rewrite IH. apply orb_true_r.
Qed.

Lemma Suback_result_success sa :
  Forall (fun code => code < 0x80) (Suback.Reasons sa) ->
  Suback_result sa = (Some sa, None).
Proof.
  intros Hall. unfold Suback_result.
  destruct (Suback.Reasons sa) as [|code [|code' Reasons]].
  - reflexivity.
  - apply Forall_cons in Hall as [Hcode _].
    destruct (Z.leb_spec 128 code); [lia | reflexivity].
  - by rewrite (existsb_failure_false _ Hall).
Qed.

Lemma Suback_result_single sa code :
  Suback.Reasons sa = [code] -> 0x80 <= code ->
  Suback_result sa =
  (Some sa,
   Some (ErrSubscribeFailed
           match Suback.Properties sa with
           | Some props => AckProperties.ReasonString props
           | None => EmptyString
           end)).
Proof.
  intros Hr Hcode. unfold Suback_result. rewrite Hr.
  destruct (Z.leb_spec 128 code); [reflexivity | lia].
Qed.

Lemma Suback_result_partial sa :
  length (Suback.Reasons sa) <> 1%nat ->
  Exists (fun code => 0x80 <= code) (Suback.Reasons sa) ->
  Suback_result sa = (Some sa, Some ErrSubscribePartial).
Proof.
  intros Hlen Hex. unfold Suback_result.
  destruct (Suback.Reasons sa) as [|code [|code' Reasons]].
  - by apply Exists_nil in Hex.
  - done.
  - by rewrite (existsb_failure_true _ Hex).
Qed.

(** Subscribe that got past its checks and its write ends with the packet
    it was handed. *)
Lemma Subscribe_reply c k ctx s reply :
  Subscribe_check (serverProps c) s = None ->
  Conn c = Some k -> broken k = false -> closes k = 0%nat ->
  exists c',
    Client_Subscribe ctx (Some reply) s c =
    Done match reply with
         | SUBACK _ sa => Suback_result sa
         | _ => (None, Some (ErrNotSuback (Type_ reply)))
         end c'.
Proof.
  intros Hcheck Hconn Hb Hc. run. rewrite Hcheck. cbn. rewrite Hconn. cbn.
  rewrite (WriteTo_open _ k Hb Hc). cbn.
  destruct reply; eexists; reflexivity.
Qed.

Lemma Unsubscribe_reply c k ctx u reply :
  Conn c = Some k -> broken k = false -> closes k = 0%nat ->
  exists c',
    Client_Unsubscribe ctx (Some reply) u c =
    Done match reply with
         | UNSUBACK _ ua => Unsuback_result ua
         | _ => (None, Some (ErrNotUnsuback (Type_ reply)))
         end c'.
Proof.
  intros Hconn Hb Hc. run. rewrite Hconn. cbn.
  rewrite (WriteTo_open _ k Hb Hc). cbn.
  destruct reply; eexists; reflexivity.
Qed.

(** C6.  A Subscribe that passed its checks and wrote its SUBSCRIBE, and is
    then handed [reply] on its channel, returns: the SUBACK and a nil error
    when all reason codes are below 0x80; the SUBACK (which holds the code)
    and the error "Failed to subscribe to topic" with the reason string when
    the only reason code is 0x80 or more; the SUBACK with all its reason
    codes and the error "At least one requested subscription failed" when
    there is not exactly one code and some code is 0x80 or more; no SUBACK
    and the error "Received ... instead of Suback" when [reply] is not a
    SUBACK. *)
Theorem Subscribe_reply_taxonomy c k ctx s reply :
  Subscribe_check (serverProps c) s = None ->
  Conn c = Some k -> broken k = false -> closes k = 0%nat ->
  exists r c',
    Client_Subscribe ctx (Some reply) s c = Done r c' /\
    (forall id sa,
        reply = SUBACK id sa ->
        Forall (fun code => code < 0x80) (Suback.Reasons sa) ->
        r = (Some sa, None)) /\
    (forall id sa code,
        reply = SUBACK id sa ->
        Suback.Reasons sa = [code] -> 0x80 <= code ->
        r = (Some sa,
             Some (ErrSubscribeFailed
                     match Suback.Properties sa with
                     | Some props => AckProperties.ReasonString props
                     | None => EmptyString
                     end))) /\
    (forall id sa,
        reply = SUBACK id sa ->
        length (Suback.Reasons sa) <> 1%nat ->
        Exists (fun code => 0x80 <= code) (Suback.Reasons sa) ->
        r = (Some sa, Some ErrSubscribePartial)) /\
    ((forall id sa, reply <> SUBACK id sa) ->
     r = (None, Some (ErrNotSuback (Type_ reply)))).
Proof.
  intros Hcheck Hconn Hb Hc.
  destruct (Subscribe_reply c k ctx s reply Hcheck Hconn Hb Hc) as [c' Hrun].
  eexists _, c'. split; [exact Hrun |].
  split; [|split; [|split]].
  - intros id sa -> Hall. by apply Suback_result_success.
  - intros id sa code -> Hr Hcode. by apply Suback_result_single with code.
  - intros id sa -> Hlen Hex. by apply Suback_result_partial.
  - intros Hnot. destruct reply; try reflexivity. by destruct (Hnot id sa).
Qed.

(** C10.  A SUBACK, or an UNSUBACK, without any reason code is returned
    with a nil error. *)
Theorem empty_reasons_succeed c k ctx id :
  Conn c = Some k -> broken k = false -> closes k = 0%nat ->
  (forall s sa,
      Subscribe_check (serverProps c) s = None ->
      Suback.Reasons sa = [] ->
      exists c', Client_Subscribe ctx (Some (SUBACK id sa)) s c = Done (Some sa, None) c') /\
  (forall u ua,
      Unsuback.Reasons ua = [] ->
      exists c', Client_Unsubscribe ctx (Some (UNSUBACK id ua)) u c = Done (Some ua, None) c').
Proof.
  intros Hconn Hb Hc. split.
  - intros s sa Hcheck Hr.
    destruct (Subscribe_reply c k ctx s (SUBACK id sa) Hcheck Hconn Hb Hc) as [c' Hrun].
    exists c'. rewrite Hrun. unfold Suback_result. by rewrite Hr.
  - intros u ua Hr.
    destruct (Unsubscribe_reply c k ctx u (UNSUBACK id ua) Hconn Hb Hc) as [c' Hrun].
    exists c'. rewrite Hrun. unfold Unsuback_result. by rewrite Hr.
Qed.

(** ** publishQoS12 and the server-facing window *)

(** When the deadline passes before a reply, publishQoS12 returns the
    deadline error and the permit it acquired stays held. *)
Lemma publishQoS12_deadline c k sem pb :
  Conn c = Some k -> broken k = false -> closes k = 0%nat ->
  serverInflight c = Some sem -> cur sem + 1 <= size sem ->
  exists c',
    Client_publishQoS12 DeadlineExceeded None pb c =
    Done (None, Some (ErrCtx DeadlineExceeded)) c' /\
    serverInflight c' = Some {| size := size sem; cur := cur sem + 1 |}.
Proof.
  intros Hconn Hb Hc Hsem Hfree. run. rewrite Hsem. unfold Acquire.
  destruct (Z.leb_spec (cur sem + 1) (size sem)); [| lia].
  cbn. rewrite Hconn. cbn. rewrite (WriteTo_open _ k Hb Hc). cbn.
  eexists. split; reflexivity.
Qed.

(** A PUBREC handed to a QoS 2 publication releases the permit and is
    returned with a nil error, whatever its reason code. *)
Lemma publishQoS12_PUBREC c k sem ctx pb a :
  Conn c = Some k -> broken k = false -> closes k = 0%nat ->
  serverInflight c = Some sem -> 0 <= cur sem -> cur sem + 1 <= size sem ->
  Publish.QoS pb = 2 ->
  exists c',
    Client_publishQoS12 ctx (Some (PUBREC a)) pb c =
    Done (Some {| PublishResponse.ReasonCode := Ack.ReasonCode a |}, None) c' /\
    serverInflight c' = Some sem.
Proof.
  intros Hconn Hb Hc Hsem Hcur Hfree Hq. run. rewrite Hsem. unfold Acquire.
  destruct (Z.leb_spec (cur sem + 1) (size sem)); [| lia].
  cbn. rewrite Hconn. cbn. rewrite (WriteTo_open _ k Hb Hc). cbn.
  rewrite Hq. cbn. unfold Release. cbn.
  destruct (Z.ltb_spec (cur sem + 1 - 1) 0); [lia |]. cbn.
  eexists. split; [reflexivity |]. cbn.
  destruct sem as [sz cr]. cbn. do 2 f_equal. lia.
Qed.

(** A PUBACK of 0x80 or more handed to a QoS 1 publication is returned
    with an error. *)
Lemma publishQoS12_PUBACK_failed c k sem ctx pb a :
  Conn c = Some k -> broken k = false -> closes k = 0%nat ->
  serverInflight c = Some sem -> 0 <= cur sem -> cur sem + 1 <= size sem ->
  Publish.QoS pb = 1 -> 0x80 <= Ack.ReasonCode a ->
  exists c',
    Client_publishQoS12 ctx (Some (PUBACK a)) pb c =
    Done (Some {| PublishResponse.ReasonCode := Ack.ReasonCode a |},
          Some (ErrPublishing (Ack.ReasonCode a))) c' /\
    serverInflight c' = Some sem.
Proof.
  intros Hconn Hb Hc Hsem Hcur Hfree Hq Hcode. run. rewrite Hsem. unfold Acquire.
  destruct (Z.leb_spec (cur sem + 1) (size sem)); [| lia].
  cbn. rewrite Hconn. cbn. rewrite (WriteTo_open _ k Hb Hc). cbn.
  rewrite Hq. cbn. unfold Release. cbn.
  destruct (Z.ltb_spec (cur sem + 1 - 1) 0); [lia |]. cbn.
  destruct (Z.leb_spec 128 (Ack.ReasonCode a)); [| lia].
  eexists. split; [reflexivity |]. cbn.
  destruct sem as [sz cr]. cbn. do 2 f_equal. lia.
Qed.

End Properties.

(** * The properties on concrete runs

    The clients below are the ones [NewClient] and [Connect] build, with the
    registry modelled above. *)

(** ** C1: PUBREL *)

(** C1.  Incoming answers a PUBREL the wrong way round.  On a connected
    client a PUBREL with identifier 7 and reason code 0 is read and nothing
    is written, the client being left as it was; the same PUBREL with reason
    code 0x80 makes Incoming write a PUBCOMP with identifier 7. *)
Theorem Incoming_PUBREL_inverted :
  Client_Incoming [inr (PUBREL pubrel_ok)] connected_client = Done tt connected_client /\
  exists c' k',
    Client_Incoming [inr (PUBREL pubrel_failed)] connected_client = Done tt c' /\
    Conn connected_client = Some k' /\
    Conn c' =
    Some {| wire := wire k' ++ [PUBCOMP {| Ack.PacketID := 7; Ack.ReasonCode := 0 |}];
            closes := 0; broken := false |}.
Proof.
  split; [vm_compute; reflexivity |].
  eexists _, _. split; [vm_compute; reflexivity |].
  split; vm_compute; reflexivity.
Qed.

(** ** C2: QoS 2 and a failing PUBREC *)

(** C2.  A QoS 2 Publish that is handed a PUBREC with reason code 0x80
    releases its permit (the window is back at 0 of 10 held) and returns the
    response carrying 0x80 together with a nil error. *)
Theorem Publish_QoS2_PUBREC_failed_nil_error :
  exists c',
    Client_Publish DeadlineExceeded (Some (PUBREC pubrec_failed)) (publish_of 2 false [109])
      connected_client =
    Done (Some {| PublishResponse.ReasonCode := 0x80 |}, None) c' /\
    serverInflight connected_client = Some {| size := 10; cur := 0 |} /\
    serverInflight c' = Some {| size := 10; cur := 0 |}.
Proof.
  eexists. split; [vm_compute; reflexivity |].
  split; vm_compute; reflexivity.
Qed.

(** ** C5: QoS 1 and the deadline *)

(** C5.  A QoS 1 Publish whose deadline passes before a reply returns the
    deadline error and leaves its permit held: the window that had 0 of 10
    permits held before the call has 1 of 10 held after it. *)
Theorem Publish_QoS1_deadline_keeps_permit :
  exists c',
    Client_Publish DeadlineExceeded None (publish_of 1 false [109]) connected_client =
    Done (None, Some (ErrCtx DeadlineExceeded)) c' /\
    serverInflight connected_client = Some {| size := 10; cur := 0 |} /\
    serverInflight c' = Some {| size := 10; cur := 1 |}.
Proof.
  eexists. split; [vm_compute; reflexivity |].
  split; vm_compute; reflexivity.
Qed.

(** ** C3: the windows after CONNACK *)

(** Scenario S1: after CONNACK(reason=0, ReceiveMaximum=10) the
    server-facing window has capacity 10 and the client-facing window has
    capacity 65535, not 10. *)
Lemma Connect_S1_windows :
  exists c',
    Client_Connect DeadlineExceeded (Some connack_S1) connect_S1 fresh_client =
    Done (Some connack_S1, None) c' /\
    ClientID c' = "c17" /\
    serverInflight c' = Some {| size := 10; cur := 0 |} /\
    clientInflight c' = Some {| size := 65535; cur := 0 |} /\
    clientInflight c' <> Some {| size := 10; cur := 0 |}.
Proof.
  eexists. split; [vm_compute; reflexivity |].
  repeat split; try (vm_compute; reflexivity).
  vm_compute. discriminate.
Qed.

Lemma Connect_adopts_CONNACK_S1 :
  exists c',
    Client_Connect DeadlineExceeded (Some connack_S1) connect_S1 fresh_client =
    Done (Some connack_S1, None) c' /\
    serverInflight c' = Some {| size := 10; cur := 0 |} /\
    clientInflight c' = Some {| size := ReceiveMaximum (clientProps fresh_client); cur := 0 |}.
Proof.
  destruct (Connect_adopts_CONNACK fresh_client fresh_conn DeadlineExceeded
              connect_S1 connack_S1 eq_refl eq_refl eq_refl)
    as (c' & Hrun & _ & _ & _ & _ & _ & _ & Hserver & Hclient).
  { vm_compute. reflexivity. }
  exists c'. split; [exact Hrun |]. split.
  - eapply Hserver; reflexivity.
  - apply Hclient; [reflexivity |]. intros props Hprops. discriminate Hprops.
Defined.

(** ** C4: Publish and the server's limits *)

(** With a server MaximumPacketSize of 4, a QoS 0 Publish with a payload of
    5 bytes returns nil, nil and its PUBLISH is on the wire. *)
Lemma Publish_over_MaximumPacketSize_sent :
  MaximumPacketSize (serverProps limited_client) = 4 /\
  exists c' k k',
    Client_Publish DeadlineExceeded None (publish_of 0 false [1; 2; 3; 4; 5]) limited_client =
    Done (None, None) c' /\
    Conn limited_client = Some k /\ Conn c' = Some k' /\
    wire k' = wire k ++ [PUBLISH (publish_of 0 false [1; 2; 3; 4; 5])].
Proof.
  split; [vm_compute; reflexivity |].
  eexists _, _, _. split; [vm_compute; reflexivity |].
  repeat split; vm_compute; reflexivity.
Qed.

Lemma Publish_preflight_limited :
  Client_Publish DeadlineExceeded None (publish_of 2 false []) limited_client =
  Done (None, Some (ErrMaxQoS 2 1)) limited_client /\
  Client_Publish DeadlineExceeded None (publish_with_alias 9) limited_client =
  Done (None, Some (ErrTopicAlias 9 5)) limited_client /\
  Client_Publish DeadlineExceeded None (publish_of 0 true []) limited_client =
  Done (None, Some ErrRetain) limited_client.
Proof.
  split; [|split].
  - apply (Publish_preflight limited_client DeadlineExceeded None (publish_of 2 false [])).
    vm_compute. reflexivity.
  - eapply (Publish_preflight limited_client DeadlineExceeded None (publish_with_alias 9)).
    + vm_compute. discriminate.
    + reflexivity.
    + reflexivity.
    + vm_compute. split; reflexivity.
  - apply (Publish_preflight limited_client DeadlineExceeded None (publish_of 0 true [])).
    + vm_compute. discriminate.
    + intros props alias Hprops. discriminate Hprops.
    + reflexivity.
    + reflexivity.
Defined.

(** ** C7: Subscribe and the server's capabilities *)

Lemma Subscribe_capability_checks_limited :
  (exists t, Client_Subscribe DeadlineExceeded None (subscribe_to "a/#" (Some 3)) limited_client =
             Done (None, Some (ErrWildcard t)) limited_client) /\
  Client_Subscribe DeadlineExceeded None (subscribe_to "$share/g/t" (Some 3)) limited_client =
  Done (None, Some ErrSubID) limited_client /\
  (exists t, Client_Subscribe DeadlineExceeded None (subscribe_to "$share/g/t" None) limited_client =
             Done (None, Some (ErrSharedSub t)) limited_client).
Proof.
  split; [|split].
  - eapply (Subscribe_capability_checks limited_client DeadlineExceeded None
              (subscribe_to "a/#" (Some 3))).
    + reflexivity.
    + apply elem_of_cons. left. reflexivity.
    + reflexivity.
  - eapply (Subscribe_capability_checks limited_client DeadlineExceeded None
              (subscribe_to "$share/g/t" (Some 3))); reflexivity.
  - eapply (Subscribe_capability_checks limited_client DeadlineExceeded None
              (subscribe_to "$share/g/t" None)).
    + reflexivity.
    + reflexivity.
    + reflexivity.
    + apply elem_of_cons. left. reflexivity.
    + reflexivity.
Defined.

(** ** C6 and C10: reading the acknowledgement *)

Lemma Subscribe_reply_taxonomy_connected :
  exists r c',
    Client_Subscribe DeadlineExceeded (Some (SUBACK 1 (suback_of [0x97] "quota")))
      (subscribe_to "a/b" None) connected_client = Done r c' /\
    r = (Some (suback_of [0x97] "quota"), Some (ErrSubscribeFailed "quota")).
Proof.
  destruct (Subscribe_reply_taxonomy connected_client
              {| wire := [CONNECT "MQTT" 5 connect_S1]; closes := 0; broken := false |}
              DeadlineExceeded (subscribe_to "a/b" None)
              (SUBACK 1 (suback_of [0x97] "quota")) eq_refl eq_refl eq_refl eq_refl)
    as (r & c' & Hrun & _ & Hsingle & _ & _).
  exists r, c'. split; [exact Hrun |].
  apply (Hsingle 1 (suback_of [0x97] "quota") 0x97); [reflexivity | reflexivity | lia].
Defined.

Lemma empty_reasons_succeed_connected :
  (exists c', Client_Subscribe DeadlineExceeded (Some (SUBACK 1 (suback_of [] EmptyString)))
                (subscribe_to "a/b" None) connected_client =
              Done (Some (suback_of [] EmptyString), None) c') /\
  (exists c', Client_Unsubscribe DeadlineExceeded (Some (UNSUBACK 1 (unsuback_of [])))
                {| Unsubscribe.Topics := ["a/b"] |} connected_client =
              Done (Some (unsuback_of []), None) c').
Proof.
  destruct (empty_reasons_succeed connected_client
              {| wire := [CONNECT "MQTT" 5 connect_S1]; closes := 0; broken := false |}
              DeadlineExceeded 1 eq_refl eq_refl eq_refl)
    as [Hsub Hunsub].
  split.
  - apply Hsub; reflexivity.
  - apply Hunsub; reflexivity.
Defined.

(** ** C8 and C9: Disconnect, and Connect without a connection *)

(** Two Disconnects on a connected client: nil, then the connection's
    error, and [Close] was called twice, not once. *)
Lemma Disconnect_twice_closes_twice :
  exists c1 c2 k2,
    Client_Disconnect disconnect_normal connected_client = Done None c1 /\
    Client_Disconnect disconnect_normal c1 = Done (Some ErrIO) c2 /\
    Conn c2 = Some k2 /\ closes k2 = 2%nat /\ closes k2 <> 1%nat.
Proof.
  eexists _, _, _. split; [vm_compute; reflexivity |].
  split; [vm_compute; reflexivity |].
  split; [vm_compute; reflexivity |].
  split; [reflexivity | discriminate].
Qed.

Lemma Disconnect_twice_connected :
  exists c1 c2,
    Client_Disconnect disconnect_normal connected_client = Done None c1 /\
    Client_Disconnect disconnect_normal c1 = Done (Some ErrIO) c2 /\
    Conn c1 =
    Some {| wire := [CONNECT "MQTT" 5 connect_S1; DISCONNECT disconnect_normal];
            closes := 1; broken := false |} /\
    Conn c2 =
    Some {| wire := [CONNECT "MQTT" 5 connect_S1; DISCONNECT disconnect_normal];
            closes := 2; broken := false |}.
Proof.
  exact (Disconnect_twice connected_client
           {| wire := [CONNECT "MQTT" 5 connect_S1]; closes := 0; broken := false |}
           disconnect_normal disconnect_normal eq_refl eq_refl eq_refl).
Defined.

Lemma Connect_nil_Conn_NewClient :
  Conn (NewClient (∅ : registry)) = None /\
  Client_Connect DeadlineExceeded (Some connack_S1) connect_S1 (NewClient (∅ : registry)) =
  Done (None, Some ErrConnNil) (NewClient ∅).
Proof.
  split; [reflexivity |].
  apply (Connect_nil_Conn (NewClient (∅ : registry))). reflexivity.
Defined.

(** * Further properties of the methods *)

Section MoreProperties.
Context {M : Type} `{MIDService M}.
Implicit Types (c : Client M) (k : NetConn) (ctx : ctxErr).

Ltac step :=
  cbv [Client_Connect Connect_established Client_Subscribe Client_Unsubscribe
       Client_Publish Client_publishQoS12 Client_Disconnect Client_Error
       Client_Authenticate Incoming_turn Incoming_dispatch
       deferring Conn_WriteTo Conn_Close go workers_Add make_chan send
       MIDs_Request serverInflight_Release bind ret get modify panic];
  cbn.

Lemma WriteTo_ready p k :
  broken k = false -> closes k = 0%nat ->
  WriteTo p k = (None, {| wire := wire k ++ [p]; closes := 0; broken := false |}).
Proof. unfold WriteTo. intros -> ->. reflexivity. Qed.

Lemma WriteTo_failed p k :
  broken k = true \/ closes k <> 0%nat -> WriteTo p k = (Some ErrIO, k).
Proof.
  unfold WriteTo. intros [-> | Hk]; [reflexivity |].
  destruct (closes k); [done |]. by rewrite orb_true_r.
Qed.

(** A write returns an error and leaves the connection as it is, or
    returns nil and appends the packet. *)
Lemma WriteTo_cases p k :
  WriteTo p k = (Some ErrIO, k) \/
  WriteTo p k = (None, {| wire := wire k ++ [p]; closes := closes k; broken := broken k |}).
Proof. unfold WriteTo. destruct (broken k || negb (closes k =? 0)%nat); auto. Qed.

(** ** Incoming: publications from the server *)

(** X1.  Incoming hands every PUBLISH it reads to the router, signals no
    waiter, and goes on.  On an open connection it answers QoS 1 with a
    PUBACK and QoS 2 with a PUBREC, both carrying the publication's packet
    identifier and reason code 0, and writes nothing for any other QoS. *)
Theorem Incoming_PUBLISH_acknowledged c k pb :
  stop c = false -> Conn c = Some k -> broken k = false -> closes k = 0%nat ->
  exists c' k',
    Incoming_turn (inr (PUBLISH pb)) c = Done true c' /\
    spawned c' = spawned c ++ [GoRoute pb] /\
    mailbox c' = mailbox c /\
    Conn c' = Some k' /\ closes k' = 0%nat /\
    (Publish.QoS pb = 1 ->
     wire k' = wire k ++ [PUBACK {| Ack.PacketID := Publish.PacketID pb; Ack.ReasonCode := 0 |}]) /\
    (Publish.QoS pb = 2 ->
     wire k' = wire k ++ [PUBREC {| Ack.PacketID := Publish.PacketID pb; Ack.ReasonCode := 0 |}]) /\
    (Publish.QoS pb <> 1 -> Publish.QoS pb <> 2 -> wire k' = wire k).
Proof.
  intros Hstop Hconn Hb Hc. step. rewrite Hstop.
  destruct (Z.eqb_spec (Publish.QoS pb) 1) as [H1|H1];
    [| destruct (Z.eqb_spec (Publish.QoS pb) 2) as [H2|H2]];
    cbn; rewrite ?Hconn; cbn; rewrite ?(WriteTo_ready _ k Hb Hc); cbn;
    eexists _, _; (split; [reflexivity |]); cbn;
    repeat split; try reflexivity; try done; intros; lia.
Qed.

(** ** Incoming: PUBREC *)

(** X2.  A PUBREC whose identifier has no waiter is answered with a PUBREL
    carrying the same identifier and reason code 0x92, whatever the reason
    code of the PUBREC; no waiter is signalled. *)
Theorem Incoming_PUBREC_unknown_id c k pr :
  stop c = false -> Conn c = Some k -> broken k = false -> closes k = 0%nat ->
  Get (Ack.PacketID pr) (MIDs c) = None ->
  Incoming_turn (inr (PUBREC pr)) c =
  Done true
    (set_Conn
       (Some {| wire := wire k ++ [PUBREL {| Ack.PacketID := Ack.PacketID pr;
                                             Ack.ReasonCode := 0x92 |}];
                closes := 0; broken := false |}) c).
Proof.
  intros Hstop Hconn Hb Hc Hget. step. rewrite Hstop, Hget. cbn.
  rewrite Hconn. cbn. rewrite (WriteTo_ready _ k Hb Hc). reflexivity.
Qed.

(** X3.  A PUBREC below 0x80 whose identifier has a waiter is answered with
    a PUBREL carrying the same identifier; the waiter is not signalled and
    stays registered, so that the PUBCOMP can reach it. *)
Theorem Incoming_PUBREC_known_success c k pr cpCtx :
  stop c = false -> Conn c = Some k -> broken k = false -> closes k = 0%nat ->
  Get (Ack.PacketID pr) (MIDs c) = Some cpCtx -> Ack.ReasonCode pr < 0x80 ->
  Incoming_turn (inr (PUBREC pr)) c =
  Done true
    (set_Conn
       (Some {| wire := wire k ++ [PUBREL {| Ack.PacketID := Ack.PacketID pr;
                                             Ack.ReasonCode := 0 |}];
                closes := 0; broken := false |}) c).
Proof.
  intros Hstop Hconn Hb Hc Hget Hcode. step. rewrite Hstop, Hget.
  destruct (Z.leb_spec 128 (Ack.ReasonCode pr)); [lia |]. cbn.
  rewrite Hconn. cbn. rewrite (WriteTo_ready _ k Hb Hc). reflexivity.
Qed.

(** X4.  A PUBREC of 0x80 or more whose identifier has a waiter is sent on
    that waiter's channel; nothing is written. *)
Theorem Incoming_PUBREC_known_failure c pr cpCtx :
  stop c = false -> Get (Ack.PacketID pr) (MIDs c) = Some cpCtx ->
  0x80 <= Ack.ReasonCode pr ->
  Incoming_turn (inr (PUBREC pr)) c =
  Done true (set_mailbox (mailbox c ++ [(Return cpCtx, PUBREC pr)]) c).
Proof.
  intros Hstop Hget Hcode. step. rewrite Hstop, Hget.
  destruct (Z.leb_spec 128 (Ack.ReasonCode pr)); [reflexivity | lia].
Qed.

(** ** Incoming: replies to the client's requests *)


(** A CONNACK read while no Connect is waiting is dropped and the loop
    goes on; while a Connect is waiting it is sent on the handshake channel.
    Nothing is written in either case. *)
Theorem Incoming_CONNACK c ca :
  stop c = false ->
  (caCtx c = None -> Incoming_turn (inr (CONNACK ca)) c = Done true c) /\
  (forall ch, caCtx c = Some ch ->
     Incoming_turn (inr (CONNACK ca)) c =
     Done true (set_mailbox (mailbox c ++ [(ch, CONNACK ca)]) c)).
Proof.
  intros Hstop. split; [intros Hca | intros ch Hca]; step;
    rewrite Hstop, Hca; reflexivity.
Qed.

(** Packets of a type without a case in the switch (CONNECT,
    SUBSCRIBE, UNSUBSCRIBE, PINGREQ, PINGRESP, the zero packet) are read and
    ignored: the client is as it was and the loop goes on. *)
Theorem Incoming_ignores_other_types c recv :
  stop c = false -> no_case recv = true ->
  Incoming_turn (inr recv) c = Done true c.
Proof.
  intros Hstop Hty.
  destruct recv; try discriminate Hty; step; rewrite Hstop; reflexivity.
Qed.

(** ** Incoming: authentication *)

(** X6.  An AUTH with reason code 0x18 is passed to the handler's
    [Authenticate] and the handler's answer is written as an AUTH packet;
    no waiter is signalled.  If that write fails, [Error] runs (the stop
    channel is closed, the ping handler stopped, the connection closed) and
    Incoming returns.  Without a handler the packet is ignored. *)
Theorem Incoming_AUTH_continue c k ap :
  stop c = false -> Conn c = Some k -> Auth.ReasonCode ap = 0x18 ->
  (forall Authenticate,
     AuthHandler c = Some Authenticate -> broken k = false -> closes k = 0%nat ->
     Incoming_turn (inr (AUTH ap)) c =
     Done true
       (set_Conn (Some {| wire := wire k ++ [AUTH (Authenticate ap)];
                          closes := 0; broken := false |}) c)) /\
  (forall Authenticate,
     AuthHandler c = Some Authenticate -> broken k = true \/ closes k <> 0%nat ->
     Incoming_turn (inr (AUTH ap)) c =
     Done false
       (set_Conn (Some (Close k)) (set_pingStops (S (pingStops c)) (set_stop true c)))) /\
  (AuthHandler c = None -> Incoming_turn (inr (AUTH ap)) c = Done true c).
Proof.
  intros Hstop Hconn Hcode. split; [|split].
  - intros f Hf Hb Hc. step. rewrite Hstop, Hcode, Hf. cbn.
    rewrite Hconn. cbn. rewrite (WriteTo_ready _ k Hb Hc). reflexivity.
  - intros f Hf Hk. step. rewrite Hstop, Hcode, Hf. cbn.
    rewrite Hconn. cbn. rewrite (WriteTo_failed _ k Hk). cbn.
    rewrite Hstop. reflexivity.
  - intros Hf. step. rewrite Hstop, Hcode, Hf. reflexivity.
Qed.

(** X7.  An AUTH with reason code 0 starts the handler's [Authenticated]
    callback in a goroutine when a handler is installed, and is sent on the
    re-authentication channel when an [Authenticate] call is waiting;
    nothing is written.  An AUTH with any reason code other than 0 and 0x18
    is ignored. *)
Theorem Incoming_AUTH_success c ap :
  stop c = false ->
  (Auth.ReasonCode ap = 0 ->
   exists c',
     Incoming_turn (inr (AUTH ap)) c = Done true c' /\
     spawned c' = spawned c ++ (if AuthHandler c is Some _ then [GoAuthenticated] else []) /\
     mailbox c' = mailbox c ++ (if raCtx c is Some ch then [(ch, AUTH ap)] else []) /\
     Conn c' = Conn c /\ stop c' = false) /\
  (Auth.ReasonCode ap <> 0 -> Auth.ReasonCode ap <> 0x18 ->
   Incoming_turn (inr (AUTH ap)) c = Done true c).
Proof.
  intros Hstop. split.
  - intros Hcode. step. rewrite Hstop, Hcode. cbn.
    destruct (AuthHandler c), (raCtx c) eqn:Hra; cbn; rewrite ?Hra; cbn;
      eexists; (split; [reflexivity |]); cbn;
      rewrite ?app_nil_r; repeat split; done.
  - intros H0 H18. step. rewrite Hstop.
    destruct (Z.eqb_spec (Auth.ReasonCode ap) 0); [done |].
    destruct (Z.eqb_spec (Auth.ReasonCode ap) 24); [done |]. reflexivity.
Qed.

(** ** Incoming: shutting down *)

(** X8.  Once the stop channel is closed Incoming returns without reading:
    whatever the connection would deliver, the client is left as it was. *)
Theorem Incoming_stopped c reads :
  stop c = true -> Client_Incoming reads c = Done tt c.
Proof.
  intros Hstop. destruct reads as [|read reads]; [reflexivity |].
  cbn. step. rewrite Hstop. reflexivity.
Qed.

(** X9.  A read error makes Incoming call [Error] and return: the stop
    channel is closed, the ping handler stopped, [Close] called on the
    connection, nothing written, and what would have been read afterwards is
    never handled. *)
Theorem Incoming_read_error c k err reads :
  stop c = false -> Conn c = Some k ->
  Client_Incoming (inl err :: reads) c =
  Done tt (set_Conn (Some (Close k)) (set_pingStops (S (pingStops c)) (set_stop true c))).
Proof.
  intros Hstop Hconn. cbn. step. rewrite Hstop. cbn. rewrite Hstop. cbn.
  rewrite Hconn. reflexivity.
Qed.

(** X10.  A DISCONNECT from the server starts the [OnDisconnect] callback
    when one is set, is sent on the re-authentication channel when an
    [Authenticate] call is waiting, and then shuts the client down through
    [Error]: stop channel closed, ping handler stopped, connection closed,
    nothing written.  Packets arriving after it are never handled. *)
Theorem Incoming_DISCONNECT c k d reads :
  stop c = false -> Conn c = Some k ->
  exists c',
    Client_Incoming (inr (DISCONNECT d) :: reads) c = Done tt c' /\
    stop c' = true /\
    pingStops c' = S (pingStops c) /\
    Conn c' = Some (Close k) /\
    spawned c' = spawned c ++ (if OnDisconnect c then [GoOnDisconnect d] else []) /\
    mailbox c' = mailbox c ++ (if raCtx c is Some ch then [(ch, DISCONNECT d)] else []) /\
    MIDs c' = MIDs c /\ serverInflight c' = serverInflight c.
Proof.
  intros Hstop Hconn.
  assert (Hrest : forall c1 : Client M, stop c1 = true ->
            Client_Incoming reads c1 = Done tt c1).
  { intros c1 H1. destruct reads as [|read reads']; [reflexivity |].
    cbn. step. rewrite H1. reflexivity. }
  cbn [Client_Incoming]. unfold bind at 1.
  assert (Hturn : exists c1,
            Incoming_turn (inr (DISCONNECT d)) c = Done true c1 /\
            stop c1 = true /\ pingStops c1 = S (pingStops c) /\
            Conn c1 = Some (Close k) /\
            spawned c1 = spawned c ++ (if OnDisconnect c then [GoOnDisconnect d] else []) /\
            mailbox c1 = mailbox c ++ (if raCtx c is Some ch then [(ch, DISCONNECT d)] else []) /\
            MIDs c1 = MIDs c /\ serverInflight c1 = serverInflight c).
  { step. rewrite Hstop.
    destruct (OnDisconnect c), (raCtx c) eqn:Hra; cbn; rewrite ?Hra; cbn;
      rewrite ?Hstop; cbn; rewrite ?Hconn; cbn;
      eexists; (split; [reflexivity |]); cbn;
      rewrite ?app_nil_r; repeat split; done. }
  destruct Hturn as (c1 & -> & Hs & Hrest1).
  rewrite (Hrest c1 Hs). exists c1. split; [reflexivity |]. split; assumption.
Qed.

(** ** Error *)

(** X11.  [Error] can be called again on a client that is already stopped:
    each call leaves the stop channel closed, stops the ping handler and
    calls [Close] on the connection, and an Incoming loop that runs after
    it handles nothing. *)
Theorem Error_shuts_down c k e1 e2 reads :
  Conn c = Some k ->
  exists c1 c2,
    Client_Error e1 c = Done tt c1 /\
    Client_Error e2 c1 = Done tt c2 /\
    stop c1 = true /\ stop c2 = true /\
    Conn c1 = Some (Close k) /\ Conn c2 = Some (Close (Close k)) /\
    pingStops c2 = S (S (pingStops c)) /\
    Client_Incoming reads c2 = Done tt c2.
Proof.
  intros Hconn.
  assert (H1 : exists c1, Client_Error e1 c = Done tt c1 /\ stop c1 = true /\
                          Conn c1 = Some (Close k) /\ pingStops c1 = S (pingStops c)).
  { step. destruct (stop c) eqn:Hs; cbn; rewrite ?Hconn; cbn;
      eexists; (split; [reflexivity |]); cbn; repeat split; done. }
  destruct H1 as (c1 & Hrun1 & Hs1 & Hk1 & Hp1).
  assert (H2 : exists c2, Client_Error e2 c1 = Done tt c2 /\ stop c2 = true /\
                          Conn c2 = Some (Close (Close k)) /\
                          pingStops c2 = S (pingStops c1)).
  { step. rewrite Hs1. cbn. rewrite Hk1. cbn.
    eexists; (split; [reflexivity |]); cbn; repeat split; done. }
  destruct H2 as (c2 & Hrun2 & Hs2 & Hk2 & Hp2).
  exists c1, c2. repeat split; try assumption.
  - by rewrite Hp2, Hp1.
  - destruct reads as [|read reads']; [reflexivity |].
    cbn. step. rewrite Hs2. reflexivity.
Qed.

(** ** Incoming: what it leaves alone *)

Lemma Incoming_keeps_refl c k : Conn c = Some k -> Incoming_keeps c c.
Proof.
  intros Hconn. unfold Incoming_keeps. split_and!; try reflexivity.
  exists k, k, []. rewrite app_nil_r. auto.
Qed.

Lemma Incoming_keeps_trans c1 c2 c3 :
  Incoming_keeps c1 c2 -> Incoming_keeps c2 c3 -> Incoming_keeps c1 c3.
Proof.
  intros (Hm & Hs & Hc & Hsp & Hcp & Hid & Hca & Hra & k1 & k2 & sent & Hk1 & Hk2 & Hw & Hcl)
         (Hm' & Hs' & Hc' & Hsp' & Hcp' & Hid' & Hca' & Hra' & k2' & k3 & sent' & Hk2' & Hk3 & Hw' & Hcl').
  rewrite Hk2 in Hk2'. injection Hk2' as <-.
  unfold Incoming_keeps. split_and!; try congruence.
  exists k1, k3, (sent ++ sent'). split_and!; try assumption.
  - rewrite Hw', Hw. by rewrite app_assoc.
  - lia.
Qed.

Ltac write_cases k :=
  repeat match goal with
         | |- context [WriteTo ?p k] =>
             let E := fresh "E" in
             destruct (WriteTo_cases p k) as [E | E]; rewrite !E; clear E; cbn
         end.

Ltac keeps k :=
  eexists _, _; split; [reflexivity |];
  unfold Incoming_keeps; cbn; split_and!; try reflexivity;
  eexists k, _, _; split; [eassumption |];
  split; [first [eassumption | reflexivity] |]; cbn;
  split; [first [reflexivity | exact (eq_sym (app_nil_r _))] | lia].

Lemma Incoming_turn_keeps c k read :
  Conn c = Some k ->
  exists continue c', Incoming_turn read c = Done continue c' /\ Incoming_keeps c c'.
Proof.
  intros Hconn. step. destruct (stop c) eqn:Hstop; [keeps k |].
  destruct read as [err | recv].
  { cbn. rewrite Hstop. cbn. rewrite Hconn. cbn. keeps k. }
  destruct recv; cbn.
  - keeps k.
  - keeps k.
  - destruct (caCtx c); keeps k.
  - destruct (Publish.QoS pb =? 1); [| destruct (Publish.QoS pb =? 2)];
      cbn; rewrite ?Hconn; cbn; write_cases k; keeps k.
  - destruct (Get (Ack.PacketID a) (MIDs c)); keeps k.
  - destruct (Get (Ack.PacketID a) (MIDs c));
      [destruct (128 <=? Ack.ReasonCode a) |];
      cbn; rewrite ?Hconn; cbn; write_cases k; keeps k.
  - destruct (Ack.ReasonCode a <? 128);
      cbn; rewrite ?Hconn; cbn; write_cases k; keeps k.
  - destruct (Get (Ack.PacketID a) (MIDs c)); keeps k.
  - keeps k.
  - destruct (Get id (MIDs c)); keeps k.
  - keeps k.
  - destruct (Get id (MIDs c)); keeps k.
  - keeps k.
  - keeps k.
  - destruct (OnDisconnect c), (raCtx c) eqn:Hra; cbn; rewrite ?Hra; cbn;
      rewrite ?Hstop; cbn; rewrite ?Hconn; cbn; keeps k.
  - destruct (Auth.ReasonCode a =? 0); [| destruct (Auth.ReasonCode a =? 24)].
    + destruct (AuthHandler c), (raCtx c) eqn:Hra; cbn; rewrite ?Hra; cbn; keeps k.
    + destruct (AuthHandler c) as [f|]; cbn; rewrite ?Hconn; cbn; [| keeps k].
      destruct (WriteTo_cases (AUTH (f a)) k) as [E | E]; rewrite !E; cbn;
        rewrite ?Hstop; cbn; keeps k.
    + keeps k.
Qed.

(** X12.  Whatever Incoming reads on an attached connection, when it
    returns or waits for the next packet it has left alone the
    packet-identifier registry, both inflight windows, the server's and the
    client's properties, the client identifier and both waiter slots; it
    only ever adds to the wire, and the packets written before are still
    its front. *)
Theorem Incoming_keeps_client reads c k :
  Conn c = Some k ->
  exists c', Client_Incoming reads c = Done tt c' /\ Incoming_keeps c c'.
Proof.
  revert c k. induction reads as [|read reads IH]; intros c k Hconn.
  - exists c. split; [reflexivity |]. by apply Incoming_keeps_refl with k.
  - destruct (Incoming_turn_keeps c k read Hconn) as (continue & c1 & Hturn & Hkeep).
    cbn [Client_Incoming]. unfold bind at 1. rewrite Hturn.
    destruct continue.
    + destruct Hkeep as (Hm & Hs & Hc & Hsp & Hcp & Hid & Hca & Hra & k0 & k1 & sent & Hk0 & Hk1 & Hw & Hcl).
      destruct (IH c1 k1 Hk1) as (c' & Hrun & Hkeep').
      exists c'. split; [exact Hrun |].
      apply Incoming_keeps_trans with c1; [| exact Hkeep'].
      unfold Incoming_keeps. split_and!; try assumption.
      by exists k0, k1, sent.
    + exists c1. split; [reflexivity | exact Hkeep].
Qed.

(** ** Connect: the handshake that does not succeed *)

(** X13.  A CONNACK of 0x80 or more makes Connect return that CONNACK with
    the error "Failed to connect to server" and the CONNACK's reason string.
    The inflight windows are not made, the server's properties and an
    assigned client identifier are not adopted, the ping handler is not
    started and the handshake slot is cleared; the Incoming goroutine
    started by the call is left running and the connection is left open. *)
Theorem Connect_refused c k ctx cp ca :
  Conn c = Some k -> broken k = false -> closes k = 0%nat ->
  0x80 <= Connack.ReasonCode ca ->
  exists c',
    Client_Connect ctx (Some ca) cp c =
    Done (Some ca,
          Some (ErrConnectFailed
                  (if Connack.Properties ca is Some props
                   then ConnackProperties.ReasonString props else EmptyString))) c' /\
    serverProps c' = serverProps c /\
    serverInflight c' = serverInflight c /\
    clientInflight c' = clientInflight c /\
    ClientID c' = Connect.ClientID cp /\
    spawned c' = spawned c ++ [GoIncoming] /\
    caCtx c' = None /\
    stop c' = stop c /\
    Conn c' = Some {| wire := wire k ++ [CONNECT "MQTT" 5 cp]; closes := 0; broken := false |}.
Proof.
  intros Hconn Hb Hc Hcode. step. rewrite !Hconn. cbn.
  destruct (Connect.Properties cp); cbn; rewrite ?Hconn; cbn;
    rewrite (WriteTo_ready _ k Hb Hc); cbn;
    (destruct (Z.leb_spec 128 (Connack.ReasonCode ca)); [| lia]);
    destruct (Connack.Properties ca); cbn;
    (eexists; split; [reflexivity |]); cbn; split_and!; reflexivity.
Qed.

(** X14.  When the deadline passes before a CONNACK arrives Connect returns
    the deadline error and no CONNACK.  The CONNECT was written, the
    handshake slot is cleared, no window is made and no ping handler
    started; the connection is left open and the Incoming goroutine
    running. *)
Theorem Connect_deadline c k cp :
  Conn c = Some k -> broken k = false -> closes k = 0%nat ->
  exists c',
    Client_Connect DeadlineExceeded None cp c =
    Done (None, Some (ErrCtx DeadlineExceeded)) c' /\
    serverInflight c' = serverInflight c /\
    clientInflight c' = clientInflight c /\
    spawned c' = spawned c ++ [GoIncoming] /\
    caCtx c' = None /\
    stop c' = stop c /\
    Conn c' = Some {| wire := wire k ++ [CONNECT "MQTT" 5 cp]; closes := 0; broken := false |}.
Proof.
  intros Hconn Hb Hc. step. rewrite !Hconn. cbn.
  destruct (Connect.Properties cp); cbn; rewrite ?Hconn; cbn;
    rewrite (WriteTo_ready _ k Hb Hc); cbn;
    (eexists; split; [reflexivity |]); cbn; split_and!; reflexivity.
Qed.

(** X15.  However a Connect on an attached connection returns, the
    handshake slot is nil again, the Incoming goroutine has been started,
    the stop channel is as it was, [Close] was not called on the connection,
    and at most the CONNECT packet (protocol name MQTT, version 5) was
    written. *)
Theorem Connect_returns c k ctx reply cp r c' :
  Conn c = Some k ->
  Client_Connect ctx reply cp c = Done r c' ->
  caCtx c' = None /\
  stop c' = stop c /\
  (exists rest, spawned c' = spawned c ++ GoIncoming :: rest) /\
  exists k',
    Conn c' = Some k' /\ closes k' = closes k /\ broken k' = broken k /\
    (wire k' = wire k \/ wire k' = wire k ++ [CONNECT "MQTT" 5 cp]).
Proof.
  intros Hconn. step. rewrite !Hconn. cbn.
  assert (Hspawn : forall g, exists rest,
             (spawned c ++ [GoIncoming]) ++ [g] = spawned c ++ GoIncoming :: rest).
  { intros g. exists [g]. by rewrite <- app_assoc. }
  assert (Hspawn0 : exists rest, spawned c ++ [GoIncoming] = spawned c ++ GoIncoming :: rest).
  { by exists []. }
  destruct (Connect.Properties cp); cbn; rewrite ?Hconn; cbn;
    (destruct (WriteTo_cases (CONNECT "MQTT" 5 cp) k) as [E | E]; rewrite !E; cbn);
    try (destruct reply as [ca|]; cbn; [| destruct ctx; cbn]);
    try discriminate;
    try destruct (128 <=? Connack.ReasonCode ca); cbn;
    try destruct (Connack.Properties ca) as [props|]; cbn;
    try destruct (String.eqb (ConnackProperties.AssignedClientID props) EmptyString); cbn;
    intros [= <- <-]; cbn; split_and!; try reflexivity; try done;
    eexists; split_and!; try reflexivity; auto.
Qed.

(** ** Subscribe and Unsubscribe: the request and the wait *)

(** X16.  A Subscribe that passes its checks asks the registry for an
    identifier first and then writes a SUBSCRIBE carrying exactly that
    identifier; however the call ends (reply, deadline, cancellation), the
    registry is left as [Request] left it: the identifier is not given
    back.  No inflight permit is involved. *)
Theorem Subscribe_sends_requested_id c k ctx reply s :
  Subscribe_check (serverProps c) s = None ->
  Conn c = Some k -> broken k = false -> closes k = 0%nat ->
  exists r c',
    Client_Subscribe ctx reply s c = Done r c' /\
    MIDs c' = (Request {| Return := nextChan c |} (MIDs c)).2 /\
    Conn c' =
    Some {| wire := wire k ++ [SUBSCRIBE (Request {| Return := nextChan c |} (MIDs c)).1 s];
            closes := 0; broken := false |} /\
    serverInflight c' = serverInflight c.
Proof.
  intros Hcheck Hconn Hb Hc. step. rewrite Hcheck. cbn. rewrite Hconn. cbn.
  rewrite (WriteTo_ready _ k Hb Hc). cbn.
  destruct reply as [[]|], ctx; cbn; eexists _, _; (split; [reflexivity |]);
    cbn; split_and!; reflexivity.
Qed.

(** X17.  A Subscribe that is handed no packet returns no SUBACK: with the
    deadline error when the context ran into its deadline, and with
    "Received 0 instead of Suback" when the context was cancelled. *)
Theorem Subscribe_no_reply c k ctx s :
  Subscribe_check (serverProps c) s = None ->
  Conn c = Some k -> broken k = false -> closes k = 0%nat ->
  exists c',
    Client_Subscribe ctx None s c =
    Done (None,
          Some match ctx with
               | DeadlineExceeded => ErrCtx DeadlineExceeded
               | Canceled => ErrNotSuback 0
               end) c'.
Proof.
  intros Hcheck Hconn Hb Hc. step. rewrite Hcheck. cbn. rewrite Hconn. cbn.
  rewrite (WriteTo_ready _ k Hb Hc). cbn.
  destruct ctx; eexists; reflexivity.
Qed.

Lemma Unsuback_result_cases ua :
  (Forall (fun code => code < 0x80) (Unsuback.Reasons ua) ->
   Unsuback_result ua = (Some ua, None)) /\
  (forall code, Unsuback.Reasons ua = [code] -> 0x80 <= code ->
     Unsuback_result ua =
     (Some ua,
      Some (ErrUnsubscribeFailed
              (if Unsuback.Properties ua is Some props
               then AckProperties.ReasonString props else EmptyString)))) /\
  (length (Unsuback.Reasons ua) <> 1%nat ->
   Exists (fun code => 0x80 <= code) (Unsuback.Reasons ua) ->
   Unsuback_result ua = (Some ua, Some ErrUnsubscribePartial)).
Proof.
  unfold Unsuback_result. split_and!.
  - intros Hall. destruct (Unsuback.Reasons ua) as [|code [|code' Reasons]].
    + reflexivity.
    + apply Forall_cons in Hall as [Hcode _].
      destruct (Z.leb_spec 128 code); [lia | reflexivity].
    + by rewrite (existsb_failure_false _ Hall).
  - intros code -> Hcode. destruct (Z.leb_spec 128 code); [reflexivity | lia].
  - intros Hlen Hex. destruct (Unsuback.Reasons ua) as [|code [|code' Reasons]].
    + by apply Exists_nil in Hex.
    + done.
    + by rewrite (existsb_failure_true _ Hex).
Qed.

(** X18.  Unsubscribe makes no check against the server's capabilities: on
    an open connection it always writes its UNSUBSCRIBE.  Handed [reply],
    it returns the UNSUBACK with a nil error when all reason codes are below
    0x80; the UNSUBACK and "Failed to unsubscribe from topic" with the
    reason string when the only code is 0x80 or more; the UNSUBACK and "At
    least one requested unsubscribe failed" when there is not exactly one
    code and some code is 0x80 or more; and "Received ... instead of
    Unsuback" without an UNSUBACK for any other packet. *)
Theorem Unsubscribe_reply_taxonomy c k ctx u reply :
  Conn c = Some k -> broken k = false -> closes k = 0%nat ->
  exists r c',
    Client_Unsubscribe ctx (Some reply) u c = Done r c' /\
    Conn c' =
    Some {| wire := wire k ++ [UNSUBSCRIBE (Request {| Return := nextChan c |} (MIDs c)).1 u];
            closes := 0; broken := false |} /\
    (forall id ua,
        reply = UNSUBACK id ua ->
        Forall (fun code => code < 0x80) (Unsuback.Reasons ua) ->
        r = (Some ua, None)) /\
    (forall id ua code,
        reply = UNSUBACK id ua ->
        Unsuback.Reasons ua = [code] -> 0x80 <= code ->
        r = (Some ua,
             Some (ErrUnsubscribeFailed
                     (if Unsuback.Properties ua is Some props
                      then AckProperties.ReasonString props else EmptyString)))) /\
    (forall id ua,
        reply = UNSUBACK id ua ->
        length (Unsuback.Reasons ua) <> 1%nat ->
        Exists (fun code => 0x80 <= code) (Unsuback.Reasons ua) ->
        r = (Some ua, Some ErrUnsubscribePartial)) /\
    ((forall id ua, reply <> UNSUBACK id ua) ->
     r = (None, Some (ErrNotUnsuback (Type_ reply)))).
Proof.
  intros Hconn Hb Hc.
  assert (Hrun : exists c',
    Client_Unsubscribe ctx (Some reply) u c =
    Done match reply with
         | UNSUBACK _ ua => Unsuback_result ua
         | _ => (None, Some (ErrNotUnsuback (Type_ reply)))
         end c' /\
    Conn c' =
    Some {| wire := wire k ++ [UNSUBSCRIBE (Request {| Return := nextChan c |} (MIDs c)).1 u];
            closes := 0; broken := false |}).
  { step. rewrite Hconn. cbn. rewrite (WriteTo_ready _ k Hb Hc). cbn.
    destruct reply; eexists; split; reflexivity. }
  destruct Hrun as (c' & Hrun & Hwire).
  eexists _, c'. split; [exact Hrun |]. split; [exact Hwire |].
  split_and!.
  - intros id ua -> Hall. by apply Unsuback_result_cases.
  - intros id ua code -> Hr Hcode. by apply Unsuback_result_cases with code.
  - intros id ua -> Hlen Hex. by apply Unsuback_result_cases.
  - intros Hnot. destruct reply; try reflexivity. by destruct (Hnot id ua).
Qed.

(** ** Publish: the three qualities of service *)

(** X19.  A QoS 0 Publish that passes the checks writes its PUBLISH on an
    open connection and returns nil, nil without waiting; it takes no
    inflight permit, asks for no packet identifier and makes no channel. *)
Theorem Publish_QoS0_fire_and_forget c k ctx reply p :
  Publish_check (serverProps c) p = None -> Publish.QoS p = 0 ->
  Conn c = Some k -> broken k = false -> closes k = 0%nat ->
  exists c',
    Client_Publish ctx reply p c = Done (None, None) c' /\
    Conn c' = Some {| wire := wire k ++ [PUBLISH p]; closes := 0; broken := false |} /\
    serverInflight c' = serverInflight c /\
    MIDs c' = MIDs c /\
    nextChan c' = nextChan c.
Proof.
  intros Hcheck Hq Hconn Hb Hc. step. rewrite Hcheck. cbn. rewrite Hq. cbn.
  rewrite Hconn. cbn. rewrite (WriteTo_ready _ k Hb Hc). cbn.
  eexists. split; [reflexivity |]. cbn. split_and!; reflexivity.
Qed.

(** X20.  A QoS 1 Publish that is handed a PUBACK releases the permit it
    acquired (the window is as before the call) and returns a response with
    the PUBACK's reason code: with a nil error below 0x80, with the error
    "Error publishing" from 0x80 on.  The PUBLISH on the wire carries the
    identifier the registry gave. *)
Theorem Publish_QoS1_PUBACK c k sem ctx p a :
  Publish_check (serverProps c) p = None -> Publish.QoS p = 1 ->
  Conn c = Some k -> broken k = false -> closes k = 0%nat ->
  serverInflight c = Some sem -> 0 <= cur sem -> cur sem + 1 <= size sem ->
  exists c',
    Client_Publish ctx (Some (PUBACK a)) p c =
    Done (Some {| PublishResponse.ReasonCode := Ack.ReasonCode a |},
          if 0x80 <=? Ack.ReasonCode a then Some (ErrPublishing (Ack.ReasonCode a)) else None)
         c' /\
    serverInflight c' = Some sem /\
    Conn c' =
    Some {| wire := wire k ++
              [PUBLISH (Publish.set_PacketID
                          (Request {| Return := nextChan c |} (MIDs c)).1 p)];
            closes := 0; broken := false |}.
Proof.
  intros Hcheck Hq Hconn Hb Hc Hsem Hcur Hfree. step.
  rewrite Hcheck. cbn. rewrite Hq. cbn. rewrite Hsem. unfold Acquire.
  destruct (Z.leb_spec (cur sem + 1) (size sem)); [| lia].
  cbn. rewrite Hconn. cbn. rewrite (WriteTo_ready _ k Hb Hc). cbn.
  rewrite ?Hq. cbn. unfold Release. cbn.
  destruct (Z.ltb_spec (cur sem + 1 - 1) 0); [lia |]. cbn.
  destruct (128 <=? Ack.ReasonCode a); cbn;
    (eexists; split; [reflexivity |]); cbn;
    (split; [| reflexivity]);
    destruct sem as [sz cr]; cbn; do 2 f_equal; lia.
Qed.

(** X21.  A QoS 2 Publish that is handed a PUBCOMP releases its permit and
    returns the response with a nil error, whatever the PUBCOMP's reason
    code. *)
Theorem Publish_QoS2_PUBCOMP c k sem ctx p a :
  Publish_check (serverProps c) p = None -> Publish.QoS p = 2 ->
  Conn c = Some k -> broken k = false -> closes k = 0%nat ->
  serverInflight c = Some sem -> 0 <= cur sem -> cur sem + 1 <= size sem ->
  exists c',
    Client_Publish ctx (Some (PUBCOMP a)) p c =
    Done (Some {| PublishResponse.ReasonCode := Ack.ReasonCode a |}, None) c' /\
    serverInflight c' = Some sem.
Proof.
  intros Hcheck Hq Hconn Hb Hc Hsem Hcur Hfree. step.
  rewrite Hcheck. cbn. rewrite Hq. cbn. rewrite Hsem. unfold Acquire.
  destruct (Z.leb_spec (cur sem + 1) (size sem)); [| lia].
  cbn. rewrite Hconn. cbn. rewrite (WriteTo_ready _ k Hb Hc). cbn.
  rewrite ?Hq. cbn. unfold Release. cbn.
  destruct (Z.ltb_spec (cur sem + 1 - 1) 0); [lia |]. cbn.
  eexists. split; [reflexivity |]. cbn.
  destruct sem as [sz cr]; cbn; do 2 f_equal; lia.
Qed.

(** X22.  When every permit of the server-facing window is held and none
    comes back before the context is done, a QoS 1 or QoS 2 Publish returns
    the context's error; it has written nothing, asked for no identifier,
    and left the client as it was. *)
Theorem Publish_window_full c sem ctx reply p :
  Publish_check (serverProps c) p = None ->
  Publish.QoS p = 1 \/ Publish.QoS p = 2 ->
  serverInflight c = Some sem -> size sem < cur sem + 1 ->
  Client_Publish ctx reply p c = Done (None, Some (ErrCtx ctx)) c.
Proof.
  intros Hcheck Hq Hsem Hfull. step. rewrite Hcheck. cbn.
  destruct Hq as [Hq | Hq]; rewrite Hq; cbn; rewrite Hsem; unfold Acquire;
    (destruct (Z.leb_spec (cur sem + 1) (size sem)); [lia | reflexivity]).
Qed.

(** X23.  A QoS 1 Publish handed a packet that is not a PUBACK, and a QoS 2
    Publish handed one that is neither PUBCOMP nor PUBREC, return an error
    naming the type received, and the permit they acquired stays held. *)
Theorem Publish_unexpected_reply c k sem ctx p resp :
  Publish_check (serverProps c) p = None ->
  Conn c = Some k -> broken k = false -> closes k = 0%nat ->
  serverInflight c = Some sem -> cur sem + 1 <= size sem ->
  (Publish.QoS p = 1 -> Type_ resp <> 4 ->
   exists c',
     Client_Publish ctx (Some resp) p c = Done (None, Some (ErrNotPuback (Type_ resp))) c' /\
     serverInflight c' = Some {| size := size sem; cur := cur sem + 1 |}) /\
  (Publish.QoS p = 2 -> Type_ resp <> 7 -> Type_ resp <> 5 ->
   exists c',
     Client_Publish ctx (Some resp) p c = Done (None, Some (ErrNotPubcomp (Type_ resp))) c' /\
     serverInflight c' = Some {| size := size sem; cur := cur sem + 1 |}).
Proof.
  intros Hcheck Hconn Hb Hc Hsem Hfree.
  split; [intros Hq Hty | intros Hq Hty Hty']; step;
    rewrite Hcheck; cbn; rewrite Hq; cbn; rewrite Hsem; unfold Acquire;
    (destruct (Z.leb_spec (cur sem + 1) (size sem)); [| lia]);
    cbn; rewrite Hconn; cbn; rewrite (WriteTo_ready _ k Hb Hc); cbn;
    rewrite ?Hq; cbn;
    destruct resp; try done; eexists; split; reflexivity.
Qed.

(** X24.  A Publish whose QoS is not 0, 1 or 2 always returns an error and
    leaves the client as it was, so nothing is written: either one of the
    capability checks rejects it, or the final "oops" does. *)
Theorem Publish_other_QoS_rejected c ctx reply p :
  Publish.QoS p <> 0 -> Publish.QoS p <> 1 -> Publish.QoS p <> 2 ->
  exists e, Client_Publish ctx reply p c = Done (None, Some e) c.
Proof.
  intros H0 H1 H2. step.
  destruct (Publish_check (serverProps c) p) as [e|]; [by exists e |].
  destruct (Z.eqb_spec (Publish.QoS p) 0); [done |].
  destruct (Z.eqb_spec (Publish.QoS p) 1); [done |].
  destruct (Z.eqb_spec (Publish.QoS p) 2); [done |].
  by exists ErrOops.
Qed.

(** X25.  A PUBACK that arrives after its QoS 1 Publish ran into the
    deadline is absorbed: given a registry in which the identifier just
    requested looks up the waiter it was requested for, Incoming sends the
    late PUBACK on the channel that Publish made and no longer reads,
    writes nothing, and the permit of that Publish stays held. *)
Theorem Publish_late_PUBACK_absorbed c k sem p a :
  let cpCtx := {| Return := nextChan c |} in
  Get (Request cpCtx (MIDs c)).1 (Request cpCtx (MIDs c)).2 = Some cpCtx ->
  Publish_check (serverProps c) p = None -> Publish.QoS p = 1 ->
  stop c = false ->
  Conn c = Some k -> broken k = false -> closes k = 0%nat ->
  serverInflight c = Some sem -> cur sem + 1 <= size sem ->
  Ack.PacketID a = (Request cpCtx (MIDs c)).1 ->
  exists c1,
    Client_Publish DeadlineExceeded None p c =
    Done (None, Some (ErrCtx DeadlineExceeded)) c1 /\
    Incoming_turn (inr (PUBACK a)) c1 =
    Done true (set_mailbox (mailbox c1 ++ [(nextChan c, PUBACK a)]) c1) /\
    serverInflight c1 = Some {| size := size sem; cur := cur sem + 1 |}.
Proof.
  intros cpCtx Hget Hcheck Hq Hstop Hconn Hb Hc Hsem Hfree Hid. step.
  rewrite Hcheck. cbn. rewrite Hq. cbn. rewrite Hsem. unfold Acquire.
  destruct (Z.leb_spec (cur sem + 1) (size sem)); [| lia].
  cbn. rewrite Hconn. cbn. rewrite (WriteTo_ready _ k Hb Hc). cbn.
  eexists. split; [reflexivity |]. cbn. rewrite Hstop. cbn.
  rewrite Hid. fold cpCtx. rewrite Hget. split; reflexivity.
Qed.

(** ** Disconnect on a dead connection *)

(** X26.  When the DISCONNECT cannot be written (the connection is broken
    or already closed), Disconnect returns the write error, and [Close] is
    called on the connection all the same; nothing is put on the wire. *)
Theorem Disconnect_after_failed_write c k d :
  Conn c = Some k -> broken k = true \/ closes k <> 0%nat ->
  Client_Disconnect d c = Done (Some ErrIO) (set_Conn (Some (Close k)) c).
Proof.
  intros Hconn Hk. step. rewrite Hconn. cbn.
  rewrite (WriteTo_failed _ k Hk). reflexivity.
Qed.

(** ** Authenticate *)

(** X27.  Authenticate writes its AUTH packet and, whatever it is handed,
    leaves the re-authentication slot nil.  An AUTH reply and a DISCONNECT
    reply both come back as a response with a nil error; any other packet
    gives "Error with Auth, didn't receive Auth or Disconnect"; a deadline
    that passes first gives the deadline error. *)
Theorem Authenticate_outcomes c k ctx reply a :
  Conn c = Some k -> broken k = false -> closes k = 0%nat ->
  exists r c',
    Client_Authenticate ctx reply a c = Done r c' /\
    raCtx c' = None /\
    Conn c' = Some {| wire := wire k ++ [AUTH a]; closes := 0; broken := false |} /\
    (forall ap, reply = Some (AUTH ap) -> r = (Some (AuthResponseFromPacketAuth ap), None)) /\
    (forall d, reply = Some (DISCONNECT d) ->
               r = (Some (AuthResponseFromPacketDisconnect d), None)) /\
    (forall rp, reply = Some rp -> Type_ rp <> 15 -> Type_ rp <> 14 ->
                r = (None, Some ErrNoAuthOrDisconnect)) /\
    (reply = None -> ctx = DeadlineExceeded ->
     r = (None, Some (AuthenticateErr (ErrCtx DeadlineExceeded)))).
Proof.
  intros Hconn Hb Hc. step. rewrite Hconn. cbn.
  rewrite (WriteTo_ready _ k Hb Hc). cbn.
  destruct reply as [[]|], ctx; cbn; eexists _, _; (split; [reflexivity |]);
    cbn; split_and!; try reflexivity;
    try (intros; simplify_eq; done).
Qed.

End MoreProperties.

(** * The further properties on concrete runs *)

Lemma Incoming_PUBLISH_acknowledged_QoS1 :
  exists c' k',
    Incoming_turn (inr (PUBLISH (inbound_publish 1))) connected_client = Done true c' /\
    Conn c' = Some k' /\
    wire k' = wire connected_conn ++ [PUBACK (ack_of 9 0)].
Proof.
  destruct (Incoming_PUBLISH_acknowledged connected_client connected_conn (inbound_publish 1)
              eq_refl eq_refl eq_refl eq_refl)
    as (c' & k' & Hrun & _ & _ & Hconn & _ & Hack & _).
  exists c', k'. split; [exact Hrun |]. split; [exact Hconn |].
  apply Hack. reflexivity.
Defined.

Lemma Incoming_PUBREC_unknown_id_connected :
  Incoming_turn (inr (PUBREC (ack_of 5 0))) connected_client =
  Done true
    (set_Conn (Some {| wire := wire connected_conn ++ [PUBREL (ack_of 5 0x92)];
                       closes := 0; broken := false |}) connected_client).
Proof.
  exact (Incoming_PUBREC_unknown_id connected_client connected_conn (ack_of 5 0)
           eq_refl eq_refl eq_refl eq_refl eq_refl).
Defined.

Lemma Incoming_PUBREC_known_success_waiting :
  Incoming_turn (inr (PUBREC (ack_of 1 0))) waiting_client =
  Done true
    (set_Conn (Some {| wire := wire waiting_conn ++ [PUBREL (ack_of 1 0)];
                       closes := 0; broken := false |}) waiting_client).
Proof.
  apply (Incoming_PUBREC_known_success waiting_client waiting_conn (ack_of 1 0)
           {| Return := 1%nat |}); reflexivity.
Defined.

Lemma Incoming_PUBREC_known_failure_waiting :
  Incoming_turn (inr (PUBREC (ack_of 1 0x80))) waiting_client =
  Done true
    (set_mailbox (mailbox waiting_client ++ [(1%nat, PUBREC (ack_of 1 0x80))]) waiting_client).
Proof.
  apply (Incoming_PUBREC_known_failure waiting_client (ack_of 1 0x80) {| Return := 1%nat |});
    first [reflexivity | discriminate].
Defined.


Lemma Incoming_AUTH_continue_handling :
  Incoming_turn (inr (AUTH (auth_of 0x18))) handling_client =
  Done true
    (set_Conn (Some {| wire := wire connected_conn ++ [AUTH (echo_Authenticate (auth_of 0x18))];
                       closes := 0; broken := false |}) handling_client) /\
  Incoming_turn (inr (AUTH (auth_of 0x18))) connected_client = Done true connected_client.
Proof.
  split.
  - apply (Incoming_AUTH_continue handling_client connected_conn (auth_of 0x18)
             eq_refl eq_refl eq_refl); reflexivity.
  - apply (Incoming_AUTH_continue connected_client connected_conn (auth_of 0x18)
             eq_refl eq_refl eq_refl); reflexivity.
Defined.

Lemma Incoming_AUTH_success_handling :
  exists c',
    Incoming_turn (inr (AUTH (auth_of 0))) handling_client = Done true c' /\
    spawned c' = spawned handling_client ++ [GoAuthenticated] /\
    Conn c' = Conn handling_client.
Proof.
  destruct (Incoming_AUTH_success handling_client (auth_of 0) eq_refl) as [Hok _].
  destruct (Hok eq_refl) as (c' & Hrun & Hspawn & _ & Hconn & _).
  exists c'. split; [exact Hrun |]. split; [exact Hspawn | exact Hconn].
Defined.

Lemma Incoming_stopped_after_Error :
  stop stopped_client = true /\
  Client_Incoming [inr (PUBLISH (inbound_publish 1)); inr PINGRESP] stopped_client =
  Done tt stopped_client.
Proof.
  split; [reflexivity |].
  apply (Incoming_stopped stopped_client). reflexivity.
Defined.

Lemma Incoming_read_error_connected :
  Client_Incoming [inl ErrIO; inr (PUBLISH (inbound_publish 1))] connected_client =
  Done tt
    (set_Conn (Some (Close connected_conn))
       (set_pingStops 1%nat (set_stop true connected_client))).
Proof.
  exact (Incoming_read_error connected_client connected_conn ErrIO
           [inr (PUBLISH (inbound_publish 1))] eq_refl eq_refl).
Defined.

Lemma Incoming_DISCONNECT_handling :
  exists c',
    Client_Incoming [inr (DISCONNECT disconnect_normal); inr (PUBLISH (inbound_publish 1))]
      handling_client = Done tt c' /\
    stop c' = true /\
    Conn c' = Some (Close connected_conn) /\
    spawned c' = spawned handling_client ++ [GoOnDisconnect disconnect_normal].
Proof.
  destruct (Incoming_DISCONNECT handling_client connected_conn disconnect_normal
              [inr (PUBLISH (inbound_publish 1))] eq_refl eq_refl)
    as (c' & Hrun & Hstop & _ & Hconn & Hspawn & _).
  exists c'. split; [exact Hrun |]. split; [exact Hstop |].
  split; [exact Hconn | exact Hspawn].
Defined.

Lemma Error_shuts_down_connected :
  exists c1 c2,
    Client_Error ErrIO connected_client = Done tt c1 /\
    Client_Error ErrServerDisconnect c1 = Done tt c2 /\
    stop c2 = true /\
    Conn c2 = Some (Close (Close connected_conn)) /\
    Client_Incoming [inr PINGRESP] c2 = Done tt c2.
Proof.
  destruct (Error_shuts_down connected_client connected_conn ErrIO ErrServerDisconnect
              [inr PINGRESP] eq_refl)
    as (c1 & c2 & Hrun1 & Hrun2 & _ & Hstop & _ & Hconn & _ & Hinc).
  exists c1, c2. split; [exact Hrun1 |]. split; [exact Hrun2 |].
  split; [exact Hstop |]. split; [exact Hconn | exact Hinc].
Defined.

Lemma Incoming_keeps_client_connected :
  exists c',
    Client_Incoming
      [inr (PUBLISH (inbound_publish 2)); inr (PUBREC (ack_of 5 0));
       inr (DISCONNECT disconnect_normal)] connected_client = Done tt c' /\
    Incoming_keeps connected_client c'.
Proof.
  exact (Incoming_keeps_client
           [inr (PUBLISH (inbound_publish 2)); inr (PUBREC (ack_of 5 0));
            inr (DISCONNECT disconnect_normal)] connected_client connected_conn eq_refl).
Defined.

Lemma Connect_refused_fresh :
  exists c',
    Client_Connect DeadlineExceeded (Some connack_refused) connect_S1 fresh_client =
    Done (Some connack_refused, Some (ErrConnectFailed "not authorized")) c' /\
    serverInflight c' = None /\
    RetainAvailable (serverProps c') = true /\
    Conn c' = Some connected_conn.
Proof.
  destruct (Connect_refused fresh_client fresh_conn DeadlineExceeded connect_S1
              connack_refused eq_refl eq_refl eq_refl)
    as (c' & Hrun & Hprops & Hwin & _ & _ & _ & _ & _ & Hconn).
  { cbn. lia. }
  exists c'. split; [exact Hrun |]. split; [exact Hwin |].
  split; [by rewrite Hprops | exact Hconn].
Defined.

Lemma Connect_deadline_fresh :
  exists c',
    Client_Connect DeadlineExceeded None connect_S1 fresh_client =
    Done (None, Some (ErrCtx DeadlineExceeded)) c' /\
    caCtx c' = None /\ stop c' = false /\ Conn c' = Some connected_conn.
Proof.
  destruct (Connect_deadline fresh_client fresh_conn connect_S1 eq_refl eq_refl eq_refl)
    as (c' & Hrun & _ & _ & _ & Hca & Hstop & Hconn).
  exists c'. split; [exact Hrun |]. split; [exact Hca |].
  split; [exact Hstop | exact Hconn].
Defined.

Lemma Connect_returns_S1 :
  caCtx connected_client = None /\ stop connected_client = false.
Proof.
  destruct (Connect_returns fresh_client fresh_conn DeadlineExceeded (Some connack_S1)
              connect_S1 (Some connack_S1, None) connected_client eq_refl)
    as (Hca & Hstop & _).
  { vm_compute. reflexivity. }
  split; [exact Hca | exact Hstop].
Defined.

Lemma Subscribe_sends_requested_id_connected :
  exists r c',
    Client_Subscribe DeadlineExceeded None (subscribe_to "a/b" None) connected_client =
    Done r c' /\
    MIDs c' !! 1 = Some {| Return := 1%nat |} /\
    Conn c' =
    Some {| wire := wire connected_conn ++ [SUBSCRIBE 1 (subscribe_to "a/b" None)];
            closes := 0; broken := false |}.
Proof.
  destruct (Subscribe_sends_requested_id connected_client connected_conn DeadlineExceeded None
              (subscribe_to "a/b" None) eq_refl eq_refl eq_refl eq_refl)
    as (r & c' & Hrun & Hmids & Hconn & _).
  exists r, c'. split; [exact Hrun |]. split; [| exact Hconn].
  rewrite Hmids. vm_compute. reflexivity.
Defined.

Lemma Subscribe_no_reply_connected :
  (exists c', Client_Subscribe DeadlineExceeded None (subscribe_to "a/b" None) connected_client =
              Done (None, Some (ErrCtx DeadlineExceeded)) c') /\
  (exists c', Client_Subscribe Canceled None (subscribe_to "a/b" None) connected_client =
              Done (None, Some (ErrNotSuback 0)) c').
Proof.
  split.
  - exact (Subscribe_no_reply connected_client connected_conn DeadlineExceeded
             (subscribe_to "a/b" None) eq_refl eq_refl eq_refl eq_refl).
  - exact (Subscribe_no_reply connected_client connected_conn Canceled
             (subscribe_to "a/b" None) eq_refl eq_refl eq_refl eq_refl).
Defined.

Lemma Unsubscribe_reply_taxonomy_limited :
  exists r c',
    Client_Unsubscribe DeadlineExceeded (Some (UNSUBACK 1 (unsuback_of [0; 0x11; 0x87])))
      {| Unsubscribe.Topics := ["a/#"; "b"; "c"] |} limited_client = Done r c' /\
    r = (Some (unsuback_of [0; 0x11; 0x87]), Some ErrUnsubscribePartial).
Proof.
  destruct (Unsubscribe_reply_taxonomy limited_client
              {| wire := [CONNECT "MQTT" 5 connect_S1]; closes := 0; broken := false |}
              DeadlineExceeded {| Unsubscribe.Topics := ["a/#"; "b"; "c"] |}
              (UNSUBACK 1 (unsuback_of [0; 0x11; 0x87])) eq_refl eq_refl eq_refl)
    as (r & c' & Hrun & _ & _ & _ & Hpartial & _).
  exists r, c'. split; [exact Hrun |].
  apply (Hpartial 1 (unsuback_of [0; 0x11; 0x87])); [reflexivity | discriminate |].
  apply Exists_cons_tl, Exists_cons_tl, Exists_cons_hd. discriminate.
Defined.

Lemma Publish_QoS0_fire_and_forget_connected :
  exists c',
    Client_Publish DeadlineExceeded None (publish_of 0 false [120]) connected_client =
    Done (None, None) c' /\
    Conn c' =
    Some {| wire := wire connected_conn ++ [PUBLISH (publish_of 0 false [120])];
            closes := 0; broken := false |} /\
    serverInflight c' = Some {| size := 10; cur := 0 |}.
Proof.
  destruct (Publish_QoS0_fire_and_forget connected_client connected_conn DeadlineExceeded None
              (publish_of 0 false [120]) eq_refl eq_refl eq_refl eq_refl eq_refl)
    as (c' & Hrun & Hconn & Hwin & _).
  exists c'. split; [exact Hrun |]. split; [exact Hconn | exact Hwin].
Defined.

Lemma Publish_QoS1_PUBACK_connected :
  (exists c', Client_Publish DeadlineExceeded (Some (PUBACK (ack_of 1 0)))
                (publish_of 1 false [109]) connected_client =
              Done (Some {| PublishResponse.ReasonCode := 0 |}, None) c' /\
              serverInflight c' = Some {| size := 10; cur := 0 |}) /\
  (exists c', Client_Publish DeadlineExceeded (Some (PUBACK (ack_of 1 0x97)))
                (publish_of 1 false [109]) connected_client =
              Done (Some {| PublishResponse.ReasonCode := 0x97 |},
                    Some (ErrPublishing 0x97)) c' /\
              serverInflight c' = Some {| size := 10; cur := 0 |}).
Proof.
  split.
  - destruct (Publish_QoS1_PUBACK connected_client connected_conn {| size := 10; cur := 0 |}
                DeadlineExceeded (publish_of 1 false [109]) (ack_of 1 0)
                eq_refl eq_refl eq_refl eq_refl eq_refl eq_refl)
      as (c' & Hrun & Hwin & _); [discriminate | discriminate |].
    exists c'. split; [exact Hrun | exact Hwin].
  - destruct (Publish_QoS1_PUBACK connected_client connected_conn {| size := 10; cur := 0 |}
                DeadlineExceeded (publish_of 1 false [109]) (ack_of 1 0x97)
                eq_refl eq_refl eq_refl eq_refl eq_refl eq_refl)
      as (c' & Hrun & Hwin & _); [discriminate | discriminate |].
    exists c'. split; [exact Hrun | exact Hwin].
Defined.

Lemma Publish_QoS2_PUBCOMP_connected :
  exists c',
    Client_Publish DeadlineExceeded (Some (PUBCOMP (ack_of 1 0)))
      (publish_of 2 false [109]) connected_client =
    Done (Some {| PublishResponse.ReasonCode := 0 |}, None) c' /\
    serverInflight c' = Some {| size := 10; cur := 0 |}.
Proof.
  apply (Publish_QoS2_PUBCOMP connected_client connected_conn {| size := 10; cur := 0 |}
           DeadlineExceeded (publish_of 2 false [109]) (ack_of 1 0));
    first [reflexivity | discriminate].
Defined.

Lemma Publish_window_full_saturated :
  Client_Publish DeadlineExceeded None (publish_of 1 false [109]) saturated_client =
  Done (None, Some (ErrCtx DeadlineExceeded)) saturated_client.
Proof.
  apply (Publish_window_full saturated_client {| size := 10; cur := 10 |} DeadlineExceeded None
           (publish_of 1 false [109])); [reflexivity | by left | reflexivity | reflexivity].
Defined.

Lemma Publish_unexpected_reply_connected :
  exists c',
    Client_Publish DeadlineExceeded (Some (SUBACK 1 (suback_of [0] EmptyString)))
      (publish_of 1 false [109]) connected_client =
    Done (None, Some (ErrNotPuback 9)) c' /\
    serverInflight c' = Some {| size := 10; cur := 1 |}.
Proof.
  destruct (Publish_unexpected_reply connected_client connected_conn {| size := 10; cur := 0 |}
              DeadlineExceeded (publish_of 1 false [109]) (SUBACK 1 (suback_of [0] EmptyString))
              eq_refl eq_refl eq_refl eq_refl eq_refl)
    as [Hqos1 _]; [discriminate |].
  apply Hqos1; [reflexivity | discriminate].
Defined.

Lemma Publish_other_QoS_rejected_connected :
  exists e,
    Client_Publish DeadlineExceeded None (publish_of 3 false [109]) connected_client =
    Done (None, Some e) connected_client.
Proof.
  apply (Publish_other_QoS_rejected connected_client DeadlineExceeded None
           (publish_of 3 false [109])); discriminate.
Defined.

Lemma Publish_late_PUBACK_absorbed_connected :
  exists c1,
    Client_Publish DeadlineExceeded None (publish_of 1 false [109]) connected_client =
    Done (None, Some (ErrCtx DeadlineExceeded)) c1 /\
    Incoming_turn (inr (PUBACK (ack_of 1 0))) c1 =
    Done true (set_mailbox (mailbox c1 ++ [(1%nat, PUBACK (ack_of 1 0))]) c1) /\
    serverInflight c1 = Some {| size := 10; cur := 1 |}.
Proof.
  apply (Publish_late_PUBACK_absorbed connected_client connected_conn {| size := 10; cur := 0 |}
           (publish_of 1 false [109]) (ack_of 1 0));
    first [reflexivity | discriminate | vm_compute; reflexivity].
Defined.

Lemma Disconnect_after_failed_write_broken :
  exists k,
    Conn broken_client = Some k /\
    Client_Disconnect disconnect_normal broken_client =
    Done (Some ErrIO) (set_Conn (Some (Close k)) broken_client).
Proof.
  eexists. split; [reflexivity |].
  apply Disconnect_after_failed_write; [reflexivity | by left].
Defined.

Lemma Authenticate_outcomes_connected :
  exists r c',
    Client_Authenticate DeadlineExceeded (Some (DISCONNECT disconnect_normal)) (auth_of 0x19)
      connected_client = Done r c' /\
    raCtx c' = None /\
    r = (Some (AuthResponseFromPacketDisconnect disconnect_normal), None).
Proof.
  destruct (Authenticate_outcomes connected_client connected_conn DeadlineExceeded
              (Some (DISCONNECT disconnect_normal)) (auth_of 0x19) eq_refl eq_refl eq_refl)
    as (r & c' & Hrun & Hra & _ & _ & Hdisc & _).
  exists r, c'. split; [exact Hrun |]. split; [exact Hra |].
  apply Hdisc. reflexivity.
Defined.
